(** * caliguland-auth: the session gateway of [src/caliguland-auth/app.py]

    A shallow embedding of the FastAPI application: the cached signing
    secret ([get_jwt_secret]), the request handlers ([login_page], [login],
    [validate], [health], [logout]), the configuration read at import time,
    and the
    part of PyJWT the handlers call ([jwt.encode] and [jwt.decode] with
    [algorithms=["HS256"]]), the rewriting of redirects by the proxy-header
    middleware, followed by the properties of the session-token life
    cycle.

    Conventions.
    - Instants are whole POSIX seconds in [Z]: PyJWT writes the [datetime]
      claims of a token as [timegm(dt.utctimetuple())] and compares the
      integer value of a claim with the current time, so that the fraction
      of the clock's reading never decides. A [datetime] holds the years 1
      to 9999.
    - A Python call that may raise is a value of [outcome]; the handlers,
      which also read and write the module global [_jwt_secret], live in the
      state-and-exception monad [M].
    - What the application imports (hmac, base64, json, bcrypt, the Dstack
      client) is a parameter, the class [Platform]. PyJWT itself is modelled
      in [Module jwt] after PyJWT 2.8 with its default options.
    - [print] calls, the request half of the proxy-header middleware (the
      handlers read neither the host nor the scheme of a request) and what
      FastAPI answers without calling a handler are not modelled. *)

From Stdlib Require Import String Ascii List ZArith Bool Lia DecimalString.
Import ListNotations.
Local Open Scope string_scope.
Local Open Scope Z_scope.

(** Case analysis on the scrutinee of the first [match] in sight. *)
Ltac case_match :=
  match goal with
  | |- context [match ?x with _ => _ end] => destruct x eqn:?
  | H : context [match ?x with _ => _ end] |- _ => destruct x eqn:?
  end.

(* ================================================================= *)
(** ** Python values *)

(** A Python [float] as [json.loads] produces it: a binary fraction
    [m * 2^e], or what it reads [Infinity], [-Infinity] (also a number too
    large for a double) and [NaN] as. *)
Inductive pyfloat : Type :=
| FFinite (m e : Z)
| FInf (negative : bool)
| FNaN.

(** What [json.loads] produces. A [dict] keeps its items in order and
    [dict_get] reads the first item stored under a key. *)
#[local] Unset Elimination Schemes.
Inductive json : Type :=
| JNull
| JBool (b : bool)
| JInt (z : Z)
| JFloat (f : pyfloat)
| JStr (s : string)
| JArr (items : list json)
| JObj (items : list (string * json)).
#[local] Set Elimination Schemes.

Abbreviation dict := (list (string * json)).

Fixpoint dict_get (k : string) (d : dict) : option json :=
  match d with
  | [] => None
  | (k', v) :: d' => if String.eqb k k' then Some v else dict_get k d'
  end.

(** [bool(v)] of a decoded JSON value. *)
Definition json_truthy (v : json) : bool :=
  match v with
  | JNull => false
  | JBool b => b
  | JInt z => negb (z =? 0)
  | JFloat (FFinite m _) => negb (m =? 0)
  | JFloat _ => true
  | JStr s => negb (String.eqb s "")
  | JArr l => match l with [] => false | _ => true end
  | JObj l => match l with [] => false | _ => true end
  end.

(** [str(z)] of an integer. *)
Definition str_of_int (z : Z) : string := NilZero.string_of_int (Z.to_int z).

(** [bool(s)] of a string, and of an optional string ([None] is falsy). *)
Definition str_truthy (s : string) : bool := negb (String.eqb s "").

Definition opt_truthy (o : option string) : bool :=
  match o with
  | Some s => str_truthy s
  | None => false
  end.

(* ================================================================= *)
(** ** Exceptions *)

(** The classes of [jwt.exceptions] that [jwt.decode] and [jwt.encode] can
    raise here. All but [InvalidKeyError] derive from
    [jwt.InvalidTokenError]. *)
Inductive jwt_error : Type :=
| DecodeError
| InvalidSignatureError
| ExpiredSignatureError
| InvalidAudienceError
| InvalidIssuedAtError
| ImmatureSignatureError
| InvalidAlgorithmError
| InvalidKeyError.

Inductive exn : Type :=
| HTTPException (status_code : Z) (detail : string)
| PyJWTError (cls : jwt_error) (msg : string)
| KeyError (key : string)
| TypeError (msg : string)
| ValueError (msg : string)
| OverflowError (msg : string)
| Exception (msg : string).

Definition is_ExpiredSignatureError (e : exn) : bool :=
  match e with
  | PyJWTError ExpiredSignatureError _ => true
  | _ => false
  end.

Definition is_InvalidTokenError (e : exn) : bool :=
  match e with
  | PyJWTError InvalidKeyError _ => false
  | PyJWTError _ _ => true
  | _ => false
  end.

(** [str(e)] *)
Definition exn_str (e : exn) : string :=
  match e with
  | HTTPException _ d => d
  | PyJWTError _ m => m
  | KeyError k => "'" ++ k ++ "'"
  | TypeError m => m
  | ValueError m => m
  | OverflowError m => m
  | Exception m => m
  end.

(** An [InvalidTokenError] that is not the expiry one. *)
Definition invalid_not_expired (e : exn) : Prop :=
  is_InvalidTokenError e = true /\ is_ExpiredSignatureError e = false.

(** What a claim check of [jwt.decode] can raise: a PyJWT error other than
    the key one, the [TypeError] of [int()] on a value that is no number
    and no string, or its [OverflowError] on an infinite float. *)
Definition claim_error (e : exn) : Prop :=
  (exists cls msg, e = PyJWTError cls msg /\ cls <> InvalidKeyError)
  \/ (exists msg, e = TypeError msg)
  \/ (exists msg, e = OverflowError msg).

Inductive outcome (A : Type) : Type :=
| Return (a : A)
| Raise (e : exn).
Arguments Return {A} a.
Arguments Raise {A} e.

Definition obind {A B : Type} (o : outcome A) (k : A -> outcome B) : outcome B :=
  match o with
  | Return a => k a
  | Raise e => Raise e
  end.

Notation "x <~ c ;; k" := (obind c (fun x => k))
  (at level 61, c at next level, right associativity).

(* ================================================================= *)
(** ** The platform below the application *)

(** The result of [json.loads]: a value, or [ValueError] with its text. *)
Inductive parsed : Type :=
| Parsed (v : json)
| Malformed (msg : string).

(** Everything the application reaches through its imports and does not
    define itself. Nothing is assumed of these operations here; a property
    that needs one says so in its statement. *)
Class Platform : Type := {
  (** [hmac.new(key, msg, hashlib.sha256).digest()] *)
  hmac_sha256 : string -> string -> string;
  (** [jwt.utils.base64url_encode] and [base64url_decode] ([None]: the
      padding error) *)
  base64url_encode : string -> string;
  base64url_decode : string -> option string;
  (** [json.dumps] with compact separators, and [json.loads] *)
  json_dumps : json -> string;
  json_loads : string -> parsed;
  (** [is_pem_format(key) or is_ssh_key(key)]: PyJWT refuses such a key as an
      HMAC secret *)
  is_asymmetric_key : string -> bool;
  (** [int(s)] of a string ([None]: [ValueError]) *)
  int_of_str : string -> option Z;
  (** [s.encode()] *)
  str_encode : string -> outcome string;
  (** [bcrypt.hashpw(password, salt)], [bcrypt.checkpw(password, hashed)] *)
  bcrypt_hashpw : string -> string -> outcome string;
  bcrypt_checkpw : string -> string -> outcome bool;
  (** [DstackClient().get_key(path=...)], read up to the key string of the
      response; the second argument counts the earlier invocations, so the
      key-management service may answer each one differently *)
  dstack_get_key : string -> nat -> outcome string
}.

(* ================================================================= *)
(** ** Strings: the compact serialization's separators *)

Definition is_dot (c : ascii) : bool := Ascii.eqb c ".".

(** [s.split(".", 1)] when it has two parts: cut at the first dot. *)
Fixpoint split_dot (s : string) : option (string * string) :=
  match s with
  | EmptyString => None
  | String c s' =>
      if is_dot c then Some (EmptyString, s')
      else match split_dot s' with
           | Some (a, b) => Some (String c a, b)
           | None => None
           end
  end.

(** [s.rsplit(".", 1)] when it has two parts: cut at the last dot. *)
Fixpoint rsplit_dot (s : string) : option (string * string) :=
  match s with
  | EmptyString => None
  | String c s' =>
      match rsplit_dot s' with
      | Some (a, b) => Some (String c a, b)
      | None => if is_dot c then Some (EmptyString, s') else None
      end
  end.

Fixpoint dotfree (s : string) : bool :=
  match s with
  | EmptyString => true
  | String c s' => negb (is_dot c) && dotfree s'
  end.

(* ================================================================= *)
(** ** PyJWT *)

Module jwt.
Section PyJWT.
Context {P : Platform}.

(** The JOSE header [jwt.encode(..., algorithm="HS256")] writes (keys
    sorted). *)
Definition jose_header : dict := [("alg", JStr "HS256"); ("typ", JStr "JWT")].

Definition signing_input_of (header payload : dict) : string :=
  base64url_encode (json_dumps (JObj header)) ++ "."
    ++ base64url_encode (json_dumps (JObj payload)).

(** [HMACAlgorithm.prepare_key] *)
Definition prepare_key (key : string) : outcome string :=
  if is_asymmetric_key key
  then Raise (PyJWTError InvalidKeyError
    "The specified key is an asymmetric key or x509 certificate and should not be used as an HMAC secret.")
  else Return key.

(** [jwt.encode(payload, key, algorithm="HS256")] *)
Definition encode (payload : dict) (key : string) : outcome string :=
  let signing_input := signing_input_of jose_header payload in
  key <~ prepare_key key ;;
  Return (signing_input ++ "." ++ base64url_encode (hmac_sha256 key signing_input)).

(** What [PyJWS._load] returns. *)
Record jws : Type := {
  payload_bytes : string;
  signing_input : string;
  header : dict;
  signature : string
}.

Definition load (token : string) : outcome jws :=
  match rsplit_dot token with
  | None => Raise (PyJWTError DecodeError "Not enough segments")
  | Some (signing_input, crypto_segment) =>
  match split_dot signing_input with
  | None => Raise (PyJWTError DecodeError "Not enough segments")
  | Some (header_segment, payload_segment) =>
  match base64url_decode header_segment with
  | None => Raise (PyJWTError DecodeError "Invalid header padding")
  | Some header_data =>
  match json_loads header_data with
  | Malformed e => Raise (PyJWTError DecodeError ("Invalid header string: " ++ e))
  | Parsed (JObj header) =>
      match base64url_decode payload_segment with
      | None => Raise (PyJWTError DecodeError "Invalid payload padding")
      | Some payload =>
      match base64url_decode crypto_segment with
      | None => Raise (PyJWTError DecodeError "Invalid crypto padding")
      | Some signature =>
          Return {| payload_bytes := payload; signing_input := signing_input;
                    header := header; signature := signature |}
      end end
  | Parsed _ =>
      Raise (PyJWTError DecodeError "Invalid header string: must be a json object")
  end end end end.

(** [alg in ["HS256"]] *)
Definition alg_allowed (alg : json) : bool :=
  match alg with
  | JStr a => String.eqb a "HS256"
  | _ => false
  end.

(** [PyJWS._verify_signature] with [algorithms=["HS256"]] *)
Definition verify_signature (t : jws) (key : string) : outcome unit :=
  match dict_get "alg" (header t) with
  | None => Raise (PyJWTError InvalidAlgorithmError "Algorithm not specified")
  | Some alg =>
      if negb (alg_allowed alg)
      then Raise (PyJWTError InvalidAlgorithmError "The specified alg value is not allowed")
      else
        key <~ prepare_key key ;;
        if String.eqb (signature t) (hmac_sha256 key (signing_input t))
        then Return tt
        else Raise (PyJWTError InvalidSignatureError "Signature verification failed")
  end.

(** [header.get("b64", True) is False]: the token announces a detached
    payload, and [decode] is given none. *)
Definition detached (header : dict) : bool :=
  match dict_get "b64" header with
  | Some (JBool false) => true
  | _ => false
  end.

Definition dquote : string := String (ascii_of_nat 34) EmptyString.

(** [PyJWS.decode_complete]: the segments are loaded, a detached payload is
    refused, and the signature is verified. *)
Definition decode_complete (token key : string) : outcome jws :=
  t <~ load token ;;
  if detached (header t)
  then Raise (PyJWTError DecodeError
         ("It is required that you pass in a value for the " ++ dquote
          ++ "detached_payload" ++ dquote
          ++ " argument to decode a message having the b64 header set to false."))
  else
    _ <~ verify_signature t key ;;
    Return t.

(** [int(x)] of a finite float: the fraction is cut off, towards zero. *)
Definition float_trunc (m e : Z) : Z :=
  if 0 <=? e then m * 2 ^ e else Z.quot m (2 ^ (- e)).

(** [int(v)] of a claim: a [ValueError] is turned into the claim's own
    error by the caller, a [TypeError] or an [OverflowError] is not. *)
Definition python_int (v : json) : outcome Z :=
  match v with
  | JInt z => Return z
  | JBool b => Return (if b then 1 else 0)
  | JFloat (FFinite m e) => Return (float_trunc m e)
  | JFloat (FInf _) => Raise (OverflowError "cannot convert float infinity to integer")
  | JFloat FNaN => Raise (ValueError "cannot convert float NaN to integer")
  | JStr s => match int_of_str s with
              | Some z => Return z
              | None => Raise (ValueError "invalid literal for int() with base 10")
              end
  | _ => Raise (TypeError "int() argument must be a string, a bytes-like object or a real number")
  end.

Definition int_claim (v : json) (cls : jwt_error) (msg : string) : outcome Z :=
  match python_int v with
  | Raise (ValueError _) => Raise (PyJWTError cls msg)
  | r => r
  end.

Definition validate_iat (payload : dict) (now : Z) : outcome unit :=
  match dict_get "iat" payload with
  | None => Return tt
  | Some v =>
      iat <~ int_claim v InvalidIssuedAtError "Issued At claim (iat) must be an integer." ;;
      if iat >? now
      then Raise (PyJWTError ImmatureSignatureError "The token is not yet valid (iat)")
      else Return tt
  end.

Definition validate_nbf (payload : dict) (now : Z) : outcome unit :=
  match dict_get "nbf" payload with
  | None => Return tt
  | Some v =>
      nbf <~ int_claim v DecodeError "Not Before claim (nbf) must be an integer." ;;
      if nbf >? now
      then Raise (PyJWTError ImmatureSignatureError "The token is not yet valid (nbf)")
      else Return tt
  end.

Definition validate_exp (payload : dict) (now : Z) : outcome unit :=
  match dict_get "exp" payload with
  | None => Return tt
  | Some v =>
      exp <~ int_claim v DecodeError "Expiration Time claim (exp) must be an integer." ;;
      if exp <=? now
      then Raise (PyJWTError ExpiredSignatureError "Signature has expired")
      else Return tt
  end.

(** No [audience] is passed to [decode]: a token that names one is
    refused. *)
Definition validate_aud (payload : dict) : outcome unit :=
  match dict_get "aud" payload with
  | None => Return tt
  | Some v =>
      if json_truthy v
      then Raise (PyJWTError InvalidAudienceError "Invalid audience")
      else Return tt
  end.

(** [PyJWT._validate_claims] with the default options: no claim is
    required, the ones present are checked in this order. *)
Definition validate_claims (payload : dict) (now : Z) : outcome unit :=
  _ <~ validate_iat payload now ;;
  _ <~ validate_nbf payload now ;;
  _ <~ validate_exp payload now ;;
  validate_aud payload.

Definition loads_payload (bytes : string) : outcome dict :=
  match json_loads bytes with
  | Malformed e => Raise (PyJWTError DecodeError ("Invalid payload string: " ++ e))
  | Parsed (JObj payload) => Return payload
  | Parsed _ => Raise (PyJWTError DecodeError "Invalid payload string: must be a json object")
  end.

(** [jwt.decode(token, key, algorithms=["HS256"])] at the instant [now] *)
Definition decode (token key : string) (now : Z) : outcome dict :=
  t <~ decode_complete token key ;;
  payload <~ loads_payload (payload_bytes t) ;;
  _ <~ validate_claims payload now ;;
  Return payload.

(** *** What a token says, read off its segments *)

(** The token passes [PyJWS.decode_complete] under [key]: it has its three
    segments, an HS256 header and an attached payload, and its signature
    segment is the HMAC of the signing input under [key]. *)
Definition signature_verifies (key token : string) : bool :=
  match decode_complete token key with
  | Return _ => true
  | Raise _ => false
  end.

(** The claim set of a token whose payload is a JSON object. *)
Definition claims_of (token : string) : option dict :=
  match load token with
  | Return t =>
      match loads_payload (payload_bytes t) with
      | Return payload => Some payload
      | Raise _ => None
      end
  | Raise _ => None
  end.

(** The [exp] claim is an instant strictly after [now]. *)
Definition expires_after (payload : dict) (now : Z) : Prop :=
  exists v e, dict_get "exp" payload = Some v /\ python_int v = Return e /\ now < e.


(** *** What the wire has to preserve *)

(** A byte string survives base64url, and its encoding has no dot. *)
Definition transmits (s : string) : Prop :=
  base64url_decode (base64url_encode s) = Some s
  /\ dotfree (base64url_encode s) = true.

(** The three segments of the token [encode payload key] survive the wire,
    and its two JSON documents are read back as written. *)
Definition wire_faithful (payload : dict) (key : string) : Prop :=
  transmits (json_dumps (JObj jose_header))
  /\ transmits (json_dumps (JObj payload))
  /\ transmits (hmac_sha256 key (signing_input_of jose_header payload))
  /\ json_loads (json_dumps (JObj jose_header)) = Parsed (JObj jose_header)
  /\ json_loads (json_dumps (JObj payload)) = Parsed (JObj payload).

End PyJWT.
End jwt.

(* ================================================================= *)
(** ** Configuration read at import time *)

Record Config : Type := {
  USERNAME : string;
  PASSWORD_HASH_BYTES : string;
  JWT_EXPIRY_HOURS : Z;
  JWT_PURPOSE : string;
  JWT_KEY_PATH : string
}.

(** [os.getenv(name, default)] *)
Definition getenv (environ : string -> option string) (name default : string) : string :=
  match environ name with
  | Some v => v
  | None => default
  end.

(** The module's top level: the process does not start without
    [VIBEVM_PASSWORD]; [salt] is what [bcrypt.gensalt()] draws. The default
    of [JWT_EXPIRY_HOURS] is [int("24")]. *)
Definition startup {P : Platform} (environ : string -> option string) (salt : string)
  : outcome Config :=
  let username := getenv environ "VIBEVM_USERNAME" "admin" in
  match environ "VIBEVM_PASSWORD" with
  | None => Raise (ValueError "Missing password configuration: VIBEVM_PASSWORD is required")
  | Some VIBEVM_PASSWORD =>
      if negb (str_truthy VIBEVM_PASSWORD)
      then Raise (ValueError "Missing password configuration: VIBEVM_PASSWORD is required")
      else
        password <~ str_encode VIBEVM_PASSWORD ;;
        hash <~ bcrypt_hashpw password salt ;;
        hours <~ match environ "JWT_EXPIRY_HOURS" with
                 | None => Return 24
                 | Some s =>
                     match int_of_str s with
                     | Some h => Return h
                     | None => Raise (ValueError "invalid literal for int() with base 10")
                     end
                 end ;;
        Return {| USERNAME := username;
                  PASSWORD_HASH_BYTES := hash;
                  JWT_EXPIRY_HOURS := hours;
                  JWT_PURPOSE := getenv environ "JWT_PURPOSE" "caliguland-session";
                  JWT_KEY_PATH := getenv environ "JWT_KEY_PATH" "caliguland/auth/signing" |}
  end.

(* ================================================================= *)
(** ** The process and its handlers' monad *)

(** The mutable state of one process: the module global [_jwt_secret], and
    how many times the key-management service has been invoked. *)
Record Process : Type := {
  _jwt_secret : option string;
  dstack_calls : nat
}.

Definition fresh_process : Process := {| _jwt_secret := None; dstack_calls := 0 |}.

Definition M (A : Type) : Type := Process -> outcome A * Process.

Definition ret {A : Type} (a : A) : M A := fun p => (Return a, p).

Definition raise {A : Type} (e : exn) : M A := fun p => (Raise e, p).

Definition lift {A : Type} (o : outcome A) : M A := fun p => (o, p).

Definition bind {A B : Type} (c : M A) (k : A -> M B) : M B :=
  fun p =>
    match c p with
    | (Return a, p') => k a p'
    | (Raise e, p') => (Raise e, p')
    end.

(** [try: c  except ...: h]: the handler [h] answers [None] for an exception
    no clause matches, which then propagates. *)
Definition try_except {A : Type} (c : M A) (h : exn -> option (M A)) : M A :=
  fun p =>
    match c p with
    | (Return a, p') => (Return a, p')
    | (Raise e, p') =>
        match h e with
        | Some k => k p'
        | None => (Raise e, p')
        end
    end.

Notation "x <- c ;; k" := (bind c (fun x => k))
  (at level 61, c at next level, right associativity).

(* ================================================================= *)
(** ** HTTP responses *)

(** The arguments of [Response.set_cookie]. *)
Record cookie : Type := {
  cookie_key : string;
  cookie_value : string;
  max_age : option Z;
  expires : option Z;
  path : string;
  httponly : bool;
  secure : bool;
  samesite : string
}.

(** [Response.delete_cookie(key)]: Starlette sets the cookie again, empty
    and already expired. *)
Definition delete_cookie (key : string) : cookie :=
  {| cookie_key := key; cookie_value := ""; max_age := Some 0; expires := Some 0;
     path := "/"; httponly := false; secure := false; samesite := "lax" |}.

(** What a handler returns: a [dict] (FastAPI answers 200 with its JSON),
    a page of markup, or a redirect with the cookies set on it. *)
Inductive response : Type :=
| JSONBody (content : dict)
| HTMLResponse (content : string)
| RedirectResponse (url : string) (status_code : Z) (cookies : list cookie).

(** The answer on the wire. *)
Record http_response : Type := {
  status : Z;
  body : json;
  location : option string;
  set_cookie : list cookie
}.

(** FastAPI's treatment of a handler's result: an [HTTPException] becomes
    its status with the body [{"detail": detail}], any other exception the
    500 of the server's error middleware. A body that is not JSON is shown
    as the string of its text. *)
Definition http_boundary (r : outcome response) : http_response :=
  match r with
  | Return (JSONBody d) =>
      {| status := 200; body := JObj d; location := None; set_cookie := [] |}
  | Return (HTMLResponse content) =>
      {| status := 200; body := JStr content; location := None; set_cookie := [] |}
  | Return (RedirectResponse url code cs) =>
      {| status := code; body := JNull; location := Some url; set_cookie := cs |}
  | Raise (HTTPException code detail) =>
      {| status := code; body := JObj [("detail", JStr detail)];
         location := None; set_cookie := [] |}
  | Raise _ =>
      {| status := 500; body := JStr "Internal Server Error";
         location := None; set_cookie := [] |}
  end.

(** The kinds of rejection the specification names for [validate], read
    off the [detail] the handler raises each with. *)
Inductive AuthError : Type :=
| NoToken
| BadSignature
| Expired
| WrongPurpose.

Definition auth_error_of (detail : string) : option AuthError :=
  if String.eqb detail "No session cookie" then Some NoToken
  else if String.eqb detail "Session expired" then Some Expired
  else if String.eqb detail "Invalid token purpose" then Some WrongPurpose
  else if String.prefix "Invalid token: " detail then Some BadSignature
  else None.

(* ================================================================= *)
(** ** The application *)

Definition LF : string := String (ascii_of_nat 10) EmptyString.

(** The markup of the login page, the string literal of [login_page]. *)
Definition login_html : string :=
  String.concat LF [
    EmptyString;
    "    <!DOCTYPE html>";
    "    <html>";
    "    <head>";
    "        <title>VibeVM Login</title>";
    "        <meta name=" ++ jwt.dquote ++ "viewport" ++ jwt.dquote ++ " content="
      ++ jwt.dquote ++ "width=device-width, initial-scale=1" ++ jwt.dquote ++ ">";
    "        <style>";
    "            body {";
    "                font-family: -apple-system, BlinkMacSystemFont, " ++ jwt.dquote
      ++ "Segoe UI" ++ jwt.dquote ++ ", Roboto, " ++ jwt.dquote ++ "Helvetica Neue"
      ++ jwt.dquote ++ ", Arial, sans-serif;";
    "                background: linear-gradient(135deg, #97B748 0%, #647D1C 100%);";
    "                display: flex;";
    "                justify-content: center;";
    "                align-items: center;";
    "                height: 100vh;";
    "                margin: 0;";
    "            }";
    "            .login-container {";
    "                background: #FCFDFA;";
    "                padding: 2.5rem;";
    "                border-radius: 12px;";
    "                box-shadow: 0 10px 40px rgba(54, 65, 29, 0.3);";
    "                width: 340px;";
    "                max-width: 90%;";
    "            }";
    "            .logo {";
    "                text-align: center;";
    "                margin-bottom: 2rem;";
    "            }";
    "            .logo h1 {";
    "                margin: 0;";
    "                color: #36411D;";
    "                font-size: 2rem;";
    "                font-weight: 600;";
    "            }";
    "            .logo p {";
    "                margin: 0.5rem 0 0 0;";
    "                color: #647D1C;";
    "                font-size: 0.875rem;";
    "            }";
    "            .form-group {";
    "                margin-bottom: 1rem;";
    "            }";
    "            label {";
    "                display: block;";
    "                margin-bottom: 0.5rem;";
    "                color: #36411D;";
    "                font-size: 0.875rem;";
    "                font-weight: 500;";
    "            }";
    "            input {";
    "                width: 100%;";
    "                padding: 0.75rem;";
    "                border: 2px solid #D1EB9C;";
    "                border-radius: 6px;";
    "                box-sizing: border-box;";
    "                font-size: 1rem;";
    "                transition: border-color 0.2s;";
    "                background: #F7FBF1;";
    "            }";
    "            input:focus {";
    "                outline: none;";
    "                border-color: #BAE730;";
    "                background: #FCFDFA;";
    "            }";
    "            button {";
    "                width: 100%;";
    "                padding: 0.875rem;";
    "                background: linear-gradient(135deg, #C4F144 0%, #97B748 100%);";
    "                color: #36411D;";
    "                border: none;";
    "                border-radius: 6px;";
    "                cursor: pointer;";
    "                font-size: 1rem;";
    "                font-weight: 600;";
    "                transition: transform 0.1s, box-shadow 0.2s;";
    "            }";
    "            button:hover {";
    "                transform: translateY(-1px);";
    "                box-shadow: 0 4px 12px rgba(196, 241, 68, 0.5);";
    "                background: linear-gradient(135deg, #BAE730 0%, #97B748 100%);";
    "            }";
    "            button:active {";
    "                transform: translateY(0);";
    "            }";
    "            .error {";
    "                color: #e74c3c;";
    "                font-size: 0.875rem;";
    "                margin-top: 1rem;";
    "                text-align: center;";
    "            }";
    "            .footer {";
    "                margin-top: 2rem;";
    "                text-align: center;";
    "                color: #647D1C;";
    "                font-size: 0.75rem;";
    "            }";
    "        </style>";
    "    </head>";
    "    <body>";
    "        <div class=" ++ jwt.dquote ++ "login-container" ++ jwt.dquote ++ ">";
    "            <div class=" ++ jwt.dquote ++ "logo" ++ jwt.dquote ++ ">";
    "                <h1>🚀 VibeVM</h1>";
    "                <p>Good Vibes, Zero Trust Required</p>";
    "            </div>";
    "            <form method=" ++ jwt.dquote ++ "post" ++ jwt.dquote ++ " action="
      ++ jwt.dquote ++ "/login" ++ jwt.dquote ++ ">";
    "                <div class=" ++ jwt.dquote ++ "form-group" ++ jwt.dquote ++ ">";
    "                    <label for=" ++ jwt.dquote ++ "username" ++ jwt.dquote
      ++ ">Username</label>";
    "                    <input type=" ++ jwt.dquote ++ "text" ++ jwt.dquote ++ " id="
      ++ jwt.dquote ++ "username" ++ jwt.dquote ++ " name=" ++ jwt.dquote ++ "username"
      ++ jwt.dquote ++ " placeholder=" ++ jwt.dquote ++ "Enter your username" ++ jwt.dquote
      ++ " required autofocus>";
    "                </div>";
    "                <div class=" ++ jwt.dquote ++ "form-group" ++ jwt.dquote ++ ">";
    "                    <label for=" ++ jwt.dquote ++ "password" ++ jwt.dquote
      ++ ">Password</label>";
    "                    <input type=" ++ jwt.dquote ++ "password" ++ jwt.dquote ++ " id="
      ++ jwt.dquote ++ "password" ++ jwt.dquote ++ " name=" ++ jwt.dquote ++ "password"
      ++ jwt.dquote ++ " placeholder=" ++ jwt.dquote ++ "Enter your password" ++ jwt.dquote
      ++ " required>";
    "                </div>";
    "                <button type=" ++ jwt.dquote ++ "submit" ++ jwt.dquote
      ++ ">Sign In</button>";
    "            </form>";
    "            <div class=" ++ jwt.dquote ++ "footer" ++ jwt.dquote ++ ">";
    "                Powered by <a href=" ++ jwt.dquote ++ "https://phala.com" ++ jwt.dquote
      ++ " target=" ++ jwt.dquote ++ "_blank" ++ jwt.dquote ++ ">Phala Cloud</a> x <a href="
      ++ jwt.dquote ++ "https://sandbox.agent-infra.com" ++ jwt.dquote ++ " target="
      ++ jwt.dquote ++ "_blank" ++ jwt.dquote ++ ">AIO Sandbox</a> x <a href=" ++ jwt.dquote
      ++ "https://github.com/Dstack-TEE/dstack" ++ jwt.dquote ++ " target=" ++ jwt.dquote
      ++ "_blank" ++ jwt.dquote ++ ">dstack</a>";
    "            </div>";
    "        </div>";
    "    </body>";
    "    </html>";
    "    " ].

Section App.
Context {P : Platform} (cfg : Config).

(** The [try] block of [get_jwt_secret]: one call of the key-management
    service, whose key is stored in [_jwt_secret] and returned; any failure
    there is answered with a 500 and stores nothing. *)
Definition derive_jwt_secret : M string :=
  fun p =>
    match dstack_get_key (JWT_KEY_PATH cfg) (dstack_calls p) with
    | Return key =>
        (Return key,
         {| _jwt_secret := Some key; dstack_calls := S (dstack_calls p) |})
    | Raise _ =>
        (Raise (HTTPException 500 "Failed to derive JWT key"),
         {| _jwt_secret := _jwt_secret p; dstack_calls := S (dstack_calls p) |})
    end.

(** [get_jwt_secret()]: [if _jwt_secret: return _jwt_secret], otherwise
    derive. *)
Definition get_jwt_secret : M string :=
  fun p =>
    match _jwt_secret p with
    | Some s => if str_truthy s then (Return s, p) else derive_jwt_secret p
    | None => derive_jwt_secret p
    end.

(** The instants a [datetime] holds: the years 1 to 9999. *)
Definition datetime_min : Z := -62135596800.
Definition datetime_max : Z := 253402300799.

(** [timedelta(hours=h)], in seconds: at most 999999999 days either way. *)
Definition timedelta_hours (h : Z) : outcome Z :=
  let days := h / 24 in
  if (days <? -999999999) || (999999999 <? days)
  then Raise (OverflowError
         ("days=" ++ str_of_int days ++ "; must have magnitude <= 999999999"))
  else Return (3600 * h).

(** [t + delta] for a [datetime] [t] *)
Definition datetime_add (t delta : Z) : outcome Z :=
  if (t + delta <? datetime_min) || (datetime_max <? t + delta)
  then Raise (OverflowError "date value out of range")
  else Return (t + delta).

(** [expiry = datetime.utcnow() + timedelta(hours=JWT_EXPIRY_HOURS)], with
    [t0] the reading of the clock *)
Definition expiry_of (t0 : Z) : outcome Z :=
  delta <~ timedelta_hours (JWT_EXPIRY_HOURS cfg) ;;
  datetime_add t0 delta.

(** The claims [login] signs; [iat] is a second reading of the clock. *)
Definition session_claims (username : string) (expiry iat : Z) : dict :=
  [ ("sub", JStr username);
    ("exp", JInt expiry);
    ("iat", JInt iat);
    ("purpose", JStr (JWT_PURPOSE cfg)) ].

(** The cookie [login] sets. *)
Definition session_cookie (token : string) : cookie :=
  {| cookie_key := "vibevm_session"; cookie_value := token;
     max_age := Some (JWT_EXPIRY_HOURS cfg * 3600); expires := None;
     path := "/"; httponly := true; secure := false; samesite := "lax" |}.

Definition session_redirect (token : string) : response :=
  RedirectResponse "/code-server" 302 [session_cookie token].

(** [bcrypt.checkpw(password.encode(), PASSWORD_HASH_BYTES)] *)
Definition checkpw (password : string) : outcome bool :=
  bytes <~ str_encode password ;;
  bcrypt_checkpw bytes (PASSWORD_HASH_BYTES cfg).

(** [POST /login]; [t0] and [t1] are the two successive readings of
    [datetime.utcnow()], for [expiry] and for the [iat] claim. *)
Definition login (t0 t1 : Z) (username password : string) : M response :=
  if negb (String.eqb username (USERNAME cfg))
  then raise (HTTPException 401 "Invalid credentials")
  else
    _ <- try_except
           (ok <- lift (checkpw password) ;;
            if negb ok
            then raise (HTTPException 401 "Invalid credentials")
            else ret tt)
           (fun _ => Some (raise (HTTPException 401 "Invalid credentials"))) ;;
    expiry <- lift (expiry_of t0) ;;
    let payload := session_claims username expiry t1 in
    key <- get_jwt_secret ;;
    token <- lift (jwt.encode payload key) ;;
    ret (session_redirect token).

(** [payload.get("purpose") != JWT_PURPOSE] *)
Definition purpose_differs (payload : dict) : bool :=
  match dict_get "purpose" payload with
  | Some (JStr s) => negb (String.eqb s (JWT_PURPOSE cfg))
  | _ => true
  end.

(** [payload["sub"]] *)
Definition subscript_sub (payload : dict) : outcome json :=
  match dict_get "sub" payload with
  | Some v => Return v
  | None => Raise (KeyError "sub")
  end.

(** The two [except] clauses of [validate], in order. *)
Definition validate_handlers (e : exn) : option (M response) :=
  if is_ExpiredSignatureError e
  then Some (raise (HTTPException 401 "Session expired"))
  else if is_InvalidTokenError e
  then Some (raise (HTTPException 401 ("Invalid token: " ++ exn_str e)))
  else None.

(** [GET /auth/validate] at the instant [now], with the value of the
    [vibevm_session] cookie ([None] when the request carries none). *)
Definition validate (now : Z) (vibevm_session : option string) : M response :=
  match vibevm_session with
  | None => raise (HTTPException 401 "No session cookie")
  | Some token =>
      if negb (str_truthy token)
      then raise (HTTPException 401 "No session cookie")
      else
        try_except
          (key <- get_jwt_secret ;;
           payload <- lift (jwt.decode token key now) ;;
           if purpose_differs payload
           then raise (HTTPException 401 "Invalid token purpose")
           else
             sub <- lift (subscript_sub payload) ;;
             ret (JSONBody [("status", JStr "valid"); ("user", sub)]))
          validate_handlers
  end.

(** [GET /login] *)
Definition login_page : M response := ret (HTMLResponse login_html).

(** [GET /health] *)
Definition health : M response :=
  ret (JSONBody [("status", JStr "healthy"); ("service", JStr "caliguland-auth")]).

(** [GET /logout] *)
Definition logout : M response :=
  ret (RedirectResponse "/login" 302 [delete_cookie "vibevm_session"]).

(** The requests that reach a handler, one constructor for each of the
    five routes, each with the parameters FastAPI extracts for the handler
    and the clock readings the handler makes. What the framework answers
    without calling a handler (no route for the path or the method, a
    form field that is missing, the router's redirect of a path with a
    trailing slash) is not a request in this sense. *)
Inductive request : Type :=
| GET_login
| POST_login (t0 t1 : Z) (username password : string)
| GET_auth_validate (now : Z) (vibevm_session : option string)
| GET_health
| GET_logout.

Definition handle (r : request) : M response :=
  match r with
  | GET_login => login_page
  | POST_login t0 t1 username password => login t0 t1 username password
  | GET_auth_validate now c => validate now c
  | GET_health => health
  | GET_logout => logout
  end.

(** The process after serving the requests [rs] one after the other. *)
Fixpoint serve (rs : list request) (p : Process) : Process :=
  match rs with
  | [] => p
  | r :: rs' => serve rs' (snd (handle r p))
  end.

End App.

(* ================================================================= *)
(** ** The proxy-header middleware: the [Location] of a response *)

(** [ProxyHeadersMiddleware.dispatch], after [call_next]: the port is
    removed from every URL of the [Location] header that the pattern
    matches. A header value is a string of bytes, among which the digits
    are the ten ASCII ones. The pattern is: [http], an optional [s], [://],
    one or more characters other than slash and colon (group 1 ends here),
    a colon, one or more digits, then a slash and everything up to the end
    of the line (group 2). None of its repetitions can give back a
    character and still match, so the match at a position is the greedy
    one. *)

Definition newline : ascii := ascii_of_nat 10.

Definition is_digit (c : ascii) : bool :=
  ((48 <=? N_of_ascii c) && (N_of_ascii c <=? 57))%N.

Definition is_host_char (c : ascii) : bool :=
  negb (Ascii.eqb c "/" || Ascii.eqb c ":").

(** What the dot of a regular expression matches. *)
Definition is_line_char (c : ascii) : bool := negb (Ascii.eqb c newline).

(** The longest prefix of [s] whose characters satisfy [f], and the rest. *)
Fixpoint span (f : ascii -> bool) (s : string) : string * string :=
  match s with
  | EmptyString => (EmptyString, EmptyString)
  | String c s' =>
      if f c
      then let (a, b) := span f s' in (String c a, b)
      else (EmptyString, s)
  end.

Fixpoint strip_prefix (pre s : string) : option string :=
  match pre with
  | EmptyString => Some s
  | String a pre' =>
      match s with
      | String b s' => if Ascii.eqb a b then strip_prefix pre' s' else None
      | EmptyString => None
      end
  end.

(** Every character of [s] satisfies [f]. *)
Fixpoint string_forall (f : ascii -> bool) (s : string) : bool :=
  match s with
  | EmptyString => true
  | String c s' => f c && string_forall f s'
  end.

(** The number of colons of [s]. *)
Fixpoint colons (s : string) : nat :=
  match s with
  | EmptyString => O
  | String c s' => if Ascii.eqb c ":" then S (colons s') else colons s'
  end.

(** The pattern matched at the start of [s]: group 1, group 2 and what
    follows the match. *)
Definition match_port_url (s : string) : option (string * string * string) :=
  match strip_prefix "http" s with
  | None => None
  | Some r0 =>
      let (scheme, r1) := match r0 with
                          | String "s"%char r' => ("https", r')
                          | _ => ("http", r0)
                          end in
      match strip_prefix "://" r1 with
      | None => None
      | Some r2 =>
          let (host, r3) := span is_host_char r2 in
          match host, r3 with
          | String _ _, String ":"%char r4 =>
              let (port, r5) := span is_digit r4 in
              match port, r5 with
              | String _ _, String "/"%char r6 =>
                  let (path, rest) := span is_line_char r6 in
                  Some (scheme ++ "://" ++ host, String "/" path, rest)
              | _, _ => None
              end
          | _, _ => None
          end
      end
  end.

(** [re.sub(pattern, group 1 + group 2, s)]: the matches are taken from
    left to right, each search starting where the last match ended. The
    fuel bounds the number of steps; [S (length s)] is never used up. *)
Fixpoint sub_port (fuel : nat) (s : string) : string :=
  match fuel with
  | O => s
  | S fuel' =>
      match match_port_url s with
      | Some (g1, g2, rest) => g1 ++ g2 ++ sub_port fuel' rest
      | None =>
          match s with
          | EmptyString => EmptyString
          | String c s' => String c (sub_port fuel' s')
          end
      end
  end.

Definition fix_location (location : string) : string :=
  sub_port (S (String.length location)) location.

(** The response as the middleware passes it on: [response.headers] gets
    the fixed location when it differs, which is to say always. *)
Definition dispatch_response (r : http_response) : http_response :=
  match location r with
  | Some l =>
      {| status := status r; body := body r;
         location := Some (fix_location l); set_cookie := set_cookie r |}
  | None => r
  end.

(** A request served through the middleware. An exception other than
    [HTTPException] passes through [dispatch] untouched and becomes the
    500 of the server, which has no [Location]. *)
Definition serve_http {P : Platform} (cfg : Config) (r : request) (p : Process)
  : http_response :=
  dispatch_response (http_boundary (fst (handle cfg r p))).

(* ================================================================= *)
(** ** An executable platform *)

(** A small instance of [Platform] on which the handlers run inside Rocq:
    hexadecimal digits stand for base64url, a line-oriented notation for
    JSON objects of strings and integers, and keyed concatenation for the
    MAC. It is used to evaluate the handlers on concrete requests; no
    general property above depends on it. *)
Module Demo.

Definition hex_digit (n : N) : ascii :=
  match n with
  | 0 => "0" | 1 => "1" | 2 => "2" | 3 => "3" | 4 => "4" | 5 => "5" | 6 => "6"
  | 7 => "7" | 8 => "8" | 9 => "9" | 10 => "a" | 11 => "b" | 12 => "c"
  | 13 => "d" | 14 => "e" | _ => "f"
  end%N%char.

Definition hex_value (c : ascii) : option N :=
  let n := N_of_ascii c in
  if ((48 <=? n) && (n <=? 57))%N then Some (n - 48)%N
  else if ((97 <=? n) && (n <=? 102))%N then Some (n - 87)%N
  else None.

Fixpoint hex_encode (s : string) : string :=
  match s with
  | EmptyString => EmptyString
  | String c s' =>
      let n := N_of_ascii c in
      String (hex_digit (n / 16)) (String (hex_digit (n mod 16)) (hex_encode s'))
  end.

Fixpoint hex_decode (s : string) : option string :=
  match s with
  | EmptyString => Some EmptyString
  | String a (String b s') =>
      match hex_value a, hex_value b, hex_decode s' with
      | Some x, Some y, Some r => Some (String (ascii_of_N (16 * x + y)) r)
      | _, _, _ => None
      end
  | String _ EmptyString => None
  end.

(** Cut a string at the first occurrence of a separator. *)
Fixpoint cut (sep : ascii) (s : string) : option (string * string) :=
  match s with
  | EmptyString => None
  | String c s' =>
      if Ascii.eqb c sep then Some (EmptyString, s')
      else match cut sep s' with
           | Some (a, b) => Some (String c a, b)
           | None => None
           end
  end.

Definition Z_of_string (s : string) : option Z :=
  option_map Z.of_int (DecimalString.NilZero.int_of_string s).

(** One item after the other, [key=svalue;] for a string, [key=ivalue;]
    for an integer, [key=fInfinity;], [key=f-Infinity;] and [key=fNaN;]
    for the floats that are no numbers, [key=bmantissa^exponent;] for the
    others. *)
Definition dump_item (kv : string * json) : string :=
  match kv with
  | (k, JStr s) => k ++ "=s" ++ s ++ ";"
  | (k, JInt z) => k ++ "=i" ++ str_of_int z ++ ";"
  | (k, JFloat (FInf false)) => k ++ "=fInfinity;"
  | (k, JFloat (FInf true)) => k ++ "=f-Infinity;"
  | (k, JFloat FNaN) => k ++ "=fNaN;"
  | (k, JFloat (FFinite m e)) => k ++ "=b" ++ str_of_int m ++ "^" ++ str_of_int e ++ ";"
  | (k, _) => k ++ "=?;"
  end.

Definition load_float (v : string) : option pyfloat :=
  if String.eqb v "Infinity" then Some (FInf false)
  else if String.eqb v "-Infinity" then Some (FInf true)
  else if String.eqb v "NaN" then Some FNaN
  else None.

Definition load_binary (v : string) : option pyfloat :=
  match cut "^" v with
  | Some (m, e) =>
      match Z_of_string m, Z_of_string e with
      | Some m, Some e => Some (FFinite m e)
      | _, _ => None
      end
  | None => None
  end.

Definition dumps (v : json) : string :=
  match v with
  | JObj items => "{" ++ String.concat "" (map dump_item items)
  | _ => "?"
  end.

Fixpoint load_items (fuel : nat) (s : string) : option dict :=
  match fuel with
  | O => None
  | S fuel' =>
      match s with
      | EmptyString => Some []
      | _ =>
          match cut ";" s with
          | None => None
          | Some (item, rest) =>
              match cut "=" item with
              | Some (k, String "s" v) =>
                  option_map (cons (k, JStr v)) (load_items fuel' rest)
              | Some (k, String "i" v) =>
                  match Z_of_string v with
                  | Some z => option_map (cons (k, JInt z)) (load_items fuel' rest)
                  | None => None
                  end
              | Some (k, String "f" v) =>
                  match load_float v with
                  | Some f => option_map (cons (k, JFloat f)) (load_items fuel' rest)
                  | None => None
                  end
              | Some (k, String "b" v) =>
                  match load_binary v with
                  | Some f => option_map (cons (k, JFloat f)) (load_items fuel' rest)
                  | None => None
                  end
              | _ => None
              end
          end
      end
  end.

Definition loads (s : string) : parsed :=
  match s with
  | String "{" items =>
      match load_items (S (String.length items)) items with
      | Some d => Parsed (JObj d)
      | None => Malformed "Expecting value"
      end
  | _ => Malformed "Expecting value"
  end.

Definition checkpw (password hashed : string) : outcome bool :=
  match cut "$" hashed with
  | Some (_, digest) => Return (String.eqb digest password)
  | None => Raise (ValueError "Invalid salt")
  end.

(** The key-management service answers every call with the same key. *)
Definition platform : Platform :=
  {| hmac_sha256 := fun key msg => key ++ "/" ++ msg;
     base64url_encode := hex_encode;
     base64url_decode := hex_decode;
     json_dumps := dumps;
     json_loads := loads;
     is_asymmetric_key := String.prefix "-----BEGIN";
     int_of_str := Z_of_string;
     str_encode := fun s => Return s;
     bcrypt_hashpw := fun password salt => Return (salt ++ "$" ++ password);
     bcrypt_checkpw := checkpw;
     dstack_get_key := fun _ _ => Return "0f1e2d3c" |}.

(** The same platform over a key-management service that answers its first
    call with the empty key and the later ones with another key. *)
Definition empty_key_platform : Platform :=
  {| hmac_sha256 := @hmac_sha256 platform;
     base64url_encode := hex_encode;
     base64url_decode := hex_decode;
     json_dumps := dumps;
     json_loads := loads;
     is_asymmetric_key := String.prefix "-----BEGIN";
     int_of_str := Z_of_string;
     str_encode := fun s => Return s;
     bcrypt_hashpw := fun password salt => Return (salt ++ "$" ++ password);
     bcrypt_checkpw := checkpw;
     dstack_get_key := fun _ n => match n with
                                  | O => Return EmptyString
                                  | S _ => Return "a9b8c7d6"
                                  end |}.

(** The configuration of a process started with [VIBEVM_PASSWORD=secret123]
    and nothing else set. *)
Definition environ (name : string) : option string :=
  if String.eqb name "VIBEVM_PASSWORD" then Some "secret123" else None.

Definition cfg : Config :=
  {| USERNAME := "admin";
     PASSWORD_HASH_BYTES := "salt$secret123";
     JWT_EXPIRY_HOURS := 24;
     JWT_PURPOSE := "caliguland-session";
     JWT_KEY_PATH := "caliguland/auth/signing" |}.

(** The same configuration with a stored digest [bcrypt.checkpw] cannot
    read. *)
Definition corrupt_cfg : Config :=
  {| USERNAME := "admin";
     PASSWORD_HASH_BYTES := "not-a-digest";
     JWT_EXPIRY_HOURS := 24;
     JWT_PURPOSE := "caliguland-session";
     JWT_KEY_PATH := "caliguland/auth/signing" |}.

(** A process whose secret is already cached. *)
Definition warm : Process := {| _jwt_secret := Some "0f1e2d3c"; dstack_calls := 1 |}.

(** Tokens signed with the cached key of [warm] (through [jwt.encode]), for
    claim sets the service itself never writes. *)
Definition token_of (payload : dict) : string :=
  match @jwt.encode platform payload "0f1e2d3c" with
  | Return t => t
  | Raise _ => EmptyString
  end.

(** The token a first [login] of [admin] hands out at the instant 1000. *)
Definition session_token : string :=
  match fst (@login platform cfg 1000 1000 "admin" "secret123" fresh_process) with
  | Return (RedirectResponse _ _ (c :: _)) => cookie_value c
  | _ => EmptyString
  end.

(** The same platform over a key-management service that is out of reach
    at its first call and answers the later ones. *)
Definition failing_key_platform : Platform :=
  {| hmac_sha256 := @hmac_sha256 platform;
     base64url_encode := hex_encode;
     base64url_decode := hex_decode;
     json_dumps := dumps;
     json_loads := loads;
     is_asymmetric_key := String.prefix "-----BEGIN";
     int_of_str := Z_of_string;
     str_encode := fun s => Return s;
     bcrypt_hashpw := fun password salt => Return (salt ++ "$" ++ password);
     bcrypt_checkpw := checkpw;
     dstack_get_key := fun _ n => match n with
                                  | O => Raise (Exception "Connection refused")
                                  | S _ => Return "0f1e2d3c"
                                  end |}.

(** [cfg] with another lifetime of the session, in hours. *)
Definition cfg_with_hours (hours : Z) : Config :=
  {| USERNAME := USERNAME cfg;
     PASSWORD_HASH_BYTES := PASSWORD_HASH_BYTES cfg;
     JWT_EXPIRY_HOURS := hours;
     JWT_PURPOSE := JWT_PURPOSE cfg;
     JWT_KEY_PATH := JWT_KEY_PATH cfg |}.

(** An unsigned token: the header announces the algorithm [none], the
    claims are those of a session of [admin], the signature segment is
    empty. *)
Definition unsigned_token : string :=
  hex_encode (dumps (JObj [("alg", JStr "none"); ("typ", JStr "JWT")])) ++ "."
    ++ hex_encode (dumps (JObj (session_claims cfg "admin" 87400 1000))) ++ ".".

(** A process of another deployment, whose cached secret is another key. *)
Definition stranger : Process := {| _jwt_secret := Some "a9b8c7d6"; dstack_calls := 1 |}.

End Demo.

(* ================================================================= *)
(** * Properties *)

(** ** Strings *)

Lemma rsplit_dot_dotfree (s : string) :
  dotfree s = true -> rsplit_dot s = None.
Proof.
  induction s as [|c s IH]; simpl; [reflexivity|].
  intros H. apply andb_true_iff in H as [Hc Hs].
  rewrite (IH Hs). apply negb_true_iff in Hc. now rewrite Hc.
Qed.

Lemma rsplit_dot_app (a b : string) :
  dotfree b = true -> rsplit_dot (a ++ "." ++ b) = Some (a, b).
Proof.
  intros Hb. induction a as [|c a IH]; simpl.
  - now rewrite (rsplit_dot_dotfree _ Hb).
  - simpl in IH. now rewrite IH.
Qed.

Lemma split_dot_app (a b : string) :
  dotfree a = true -> split_dot (a ++ "." ++ b) = Some (a, b).
Proof.
  induction a as [|c a IH]; simpl; [reflexivity|].
  intros H. apply andb_true_iff in H as [Hc Ha].
  apply negb_true_iff in Hc. rewrite Hc.
  simpl in IH. now rewrite (IH Ha).
Qed.

Lemma rsplit_dot_empty : rsplit_dot EmptyString = None.
Proof. reflexivity. Qed.

Lemma str_truthy_app_dot (a b : string) : str_truthy (a ++ "." ++ b) = true.
Proof. destruct a; reflexivity. Qed.

Lemma str_truthy_iff (s : string) : str_truthy s = true <-> s <> EmptyString.
Proof.
  unfold str_truthy. destruct s; simpl; split; intros H; congruence.
Qed.

(** ** PyJWT: a token written by [encode] is read back *)

Section JwtFacts.
Context {P : Platform}.

Lemma encode_Return (payload : dict) (key token : string) :
  jwt.encode payload key = Return token ->
  is_asymmetric_key key = false
  /\ token = jwt.signing_input_of jwt.jose_header payload ++ "."
             ++ base64url_encode
                  (hmac_sha256 key (jwt.signing_input_of jwt.jose_header payload)).
Proof.
  unfold jwt.encode, jwt.prepare_key.
  destruct (is_asymmetric_key key); simpl; intros H; [discriminate|].
  injection H as <-. split; reflexivity.
Qed.

Lemma load_encoded (payload : dict) (key token : string) :
  jwt.wire_faithful payload key ->
  jwt.encode payload key = Return token ->
  jwt.load token =
    Return {| jwt.payload_bytes := json_dumps (JObj payload);
              jwt.signing_input := jwt.signing_input_of jwt.jose_header payload;
              jwt.header := jwt.jose_header;
              jwt.signature :=
                hmac_sha256 key (jwt.signing_input_of jwt.jose_header payload) |}.
Proof.
  intros (Hh & Hp & Hs & Hjh & Hjp) Henc.
  apply encode_Return in Henc as [_ ->].
  destruct Hh as [Hh1 Hh2], Hp as [Hp1 _], Hs as [Hs1 Hs2].
  unfold jwt.load. rewrite (rsplit_dot_app _ _ Hs2).
  unfold jwt.signing_input_of at 1. rewrite (split_dot_app _ _ Hh2).
  rewrite Hh1, Hjh. simpl. now rewrite Hp1, Hs1.
Qed.

Lemma decode_complete_encoded (payload : dict) (key token : string) :
  jwt.wire_faithful payload key ->
  jwt.encode payload key = Return token ->
  jwt.decode_complete token key =
    Return {| jwt.payload_bytes := json_dumps (JObj payload);
              jwt.signing_input := jwt.signing_input_of jwt.jose_header payload;
              jwt.header := jwt.jose_header;
              jwt.signature :=
                hmac_sha256 key (jwt.signing_input_of jwt.jose_header payload) |}.
Proof.
  intros Hw Henc.
  unfold jwt.decode_complete. rewrite (load_encoded _ _ _ Hw Henc). simpl.
  apply encode_Return in Henc as [Hkey _].
  unfold jwt.verify_signature, jwt.prepare_key. simpl.
  rewrite Hkey. simpl. now rewrite String.eqb_refl.
Qed.

Lemma decode_encoded (payload : dict) (key token : string) (now : Z) :
  jwt.wire_faithful payload key ->
  jwt.encode payload key = Return token ->
  jwt.validate_claims payload now = Return tt ->
  jwt.decode token key now = Return payload.
Proof.
  intros Hw Henc Hclaims.
  unfold jwt.decode. rewrite (decode_complete_encoded _ _ _ Hw Henc). simpl.
  unfold jwt.loads_payload.
  destruct Hw as (_ & _ & _ & _ & ->). simpl.
  now rewrite Hclaims.
Qed.

End JwtFacts.

(** ** PyJWT: what [decode] has checked when it returns, and what it raises *)

Section JwtChecks.
Context {P : Platform}.

Lemma load_Raise (token : string) (e : exn) :
  jwt.load token = Raise e -> exists msg, e = PyJWTError DecodeError msg.
Proof.
  unfold jwt.load. intros H.
  repeat case_match; try discriminate H; injection H as <-; eauto.
Qed.

Lemma verify_signature_Return (t : jwt.jws) (key : string) (u : unit) :
  jwt.verify_signature t key = Return u ->
  dict_get "alg" (jwt.header t) = Some (JStr "HS256")
  /\ is_asymmetric_key key = false
  /\ jwt.signature t = hmac_sha256 key (jwt.signing_input t).
Proof.
  unfold jwt.verify_signature, jwt.prepare_key, jwt.alg_allowed. intros H.
  destruct (dict_get "alg" (jwt.header t)) as [[| | | |a| |]|];
    simpl in H; try discriminate H.
  destruct (String.eqb_spec a "HS256") as [Ha|]; simpl in H; [|discriminate].
  subst a.
  destruct (is_asymmetric_key key); simpl in H; [discriminate|].
  destruct (String.eqb_spec (jwt.signature t) (hmac_sha256 key (jwt.signing_input t)));
    [auto | discriminate].
Qed.

Lemma verify_signature_Raise (t : jwt.jws) (key : string) (e : exn) :
  jwt.verify_signature t key = Raise e ->
  (is_asymmetric_key key = false -> invalid_not_expired e)
  /\ exists cls msg, e = PyJWTError cls msg.
Proof.
  unfold jwt.verify_signature, jwt.prepare_key, invalid_not_expired. intros H.
  destruct (dict_get "alg" (jwt.header t)) as [alg|];
    [|injection H as <-; split; eauto].
  destruct (jwt.alg_allowed alg); simpl in H.
  - destruct (is_asymmetric_key key); simpl in H.
    + injection H as <-. split; [discriminate | eauto].
    + case_match; [discriminate|]. injection H as <-. split; eauto.
  - injection H as <-. split; eauto.
Qed.

Lemma decode_complete_Return (token key : string) (t : jwt.jws) :
  jwt.decode_complete token key = Return t ->
  jwt.load token = Return t
  /\ dict_get "alg" (jwt.header t) = Some (JStr "HS256")
  /\ is_asymmetric_key key = false
  /\ jwt.signature t = hmac_sha256 key (jwt.signing_input t).
Proof.
  unfold jwt.decode_complete, obind. intros H.
  destruct (jwt.load token) as [t'|]; [|discriminate H].
  destruct (jwt.detached (jwt.header t')); [discriminate H|].
  destruct (jwt.verify_signature t' key) as [u|] eqn:Hv; [|discriminate H].
  injection H as <-. split; [reflexivity|].
  exact (verify_signature_Return _ _ _ Hv).
Qed.

Lemma decode_complete_Raise (token key : string) (e : exn) :
  jwt.decode_complete token key = Raise e ->
  (is_asymmetric_key key = false -> invalid_not_expired e)
  /\ exists cls msg, e = PyJWTError cls msg.
Proof.
  unfold jwt.decode_complete, obind. intros H.
  destruct (jwt.load token) as [t|e'] eqn:Hl.
  - destruct (jwt.detached (jwt.header t)).
    + injection H as <-. split; [split; reflexivity | eauto].
    + destruct (jwt.verify_signature t key) as [u|e'] eqn:Hv; [discriminate H|].
      injection H as <-. exact (verify_signature_Raise _ _ _ Hv).
  - injection H as <-. apply load_Raise in Hl as [msg ->].
    split; [split; reflexivity | eauto].
Qed.

Lemma loads_payload_Raise (bytes : string) (e : exn) :
  jwt.loads_payload bytes = Raise e -> exists msg, e = PyJWTError DecodeError msg.
Proof.
  unfold jwt.loads_payload. intros H.
  repeat case_match; try discriminate H; injection H as <-; eauto.
Qed.

Lemma int_claim_Raise (v : json) (cls : jwt_error) (msg : string) (e : exn) :
  jwt.int_claim v cls msg = Raise e ->
  e = PyJWTError cls msg \/ (exists m, e = TypeError m)
  \/ (exists m, e = OverflowError m).
Proof.
  unfold jwt.int_claim, jwt.python_int. intros H.
  destruct v as [| | |[| |]| | |]; try discriminate H;
    try (injection H as <-; eauto).
  destruct (int_of_str s); [discriminate|]. injection H as <-. eauto.
Qed.

Lemma int_claim_error (v : json) (cls : jwt_error) (msg : string) (e : exn) :
  cls <> InvalidKeyError -> cls <> ExpiredSignatureError ->
  jwt.int_claim v cls msg = Raise e ->
  claim_error e /\ is_ExpiredSignatureError e = false.
Proof.
  intros Hk Hx H. apply int_claim_Raise in H as [-> | [[m ->] | [m ->]]].
  - split; [left; eauto | destruct cls; try reflexivity; congruence].
  - split; [right; left; eauto | reflexivity].
  - split; [right; right; eauto | reflexivity].
Qed.

Lemma validate_iat_Raise (payload : dict) (now : Z) (e : exn) :
  jwt.validate_iat payload now = Raise e -> claim_error e /\ is_ExpiredSignatureError e = false.
Proof.
  unfold jwt.validate_iat. intros H.
  destruct (dict_get "iat" payload) as [v|]; [|discriminate].
  unfold obind in H.
  destruct (jwt.int_claim v InvalidIssuedAtError _) as [iat|e'] eqn:Hi.
  - destruct (iat >? now); [|discriminate]. injection H as <-.
    split; [left; eexists _, _; split; [reflexivity | discriminate] | reflexivity].
  - injection H as <-. apply int_claim_error in Hi; [assumption | discriminate ..].
Qed.

Lemma validate_nbf_Raise (payload : dict) (now : Z) (e : exn) :
  jwt.validate_nbf payload now = Raise e -> claim_error e /\ is_ExpiredSignatureError e = false.
Proof.
  unfold jwt.validate_nbf. intros H.
  destruct (dict_get "nbf" payload) as [v|]; [|discriminate].
  unfold obind in H.
  destruct (jwt.int_claim v DecodeError _) as [nbf|e'] eqn:Hi.
  - destruct (nbf >? now); [|discriminate]. injection H as <-.
    split; [left; eexists _, _; split; [reflexivity | discriminate] | reflexivity].
  - injection H as <-. apply int_claim_error in Hi; [assumption | discriminate ..].
Qed.

Lemma validate_exp_Raise (payload : dict) (now : Z) (e : exn) :
  jwt.validate_exp payload now = Raise e -> claim_error e.
Proof.
  unfold jwt.validate_exp. intros H.
  destruct (dict_get "exp" payload) as [v|]; [|discriminate].
  unfold obind in H.
  destruct (jwt.int_claim v DecodeError _) as [exp|e'] eqn:Hi.
  - destruct (exp <=? now); [|discriminate]. injection H as <-.
    left; eexists _, _; split; [reflexivity | discriminate].
  - injection H as <-. apply int_claim_error in Hi; [tauto | discriminate ..].
Qed.

Lemma validate_aud_Raise (payload : dict) (e : exn) :
  jwt.validate_aud payload = Raise e -> claim_error e.
Proof.
  unfold jwt.validate_aud. intros H.
  destruct (dict_get "aud" payload) as [v|]; [|discriminate].
  destruct (json_truthy v); [|discriminate]. injection H as <-.
  left; eexists _, _; split; [reflexivity | discriminate].
Qed.

Lemma validate_claims_Raise (payload : dict) (now : Z) (e : exn) :
  jwt.validate_claims payload now = Raise e -> claim_error e.
Proof.
  unfold jwt.validate_claims, obind. intros H.
  destruct (jwt.validate_iat payload now) eqn:H1;
    [| injection H as <-; now apply validate_iat_Raise in H1].
  destruct (jwt.validate_nbf payload now) eqn:H2;
    [| injection H as <-; now apply validate_nbf_Raise in H2].
  destruct (jwt.validate_exp payload now) eqn:H3;
    [| injection H as <-; now apply validate_exp_Raise in H3].
  now apply validate_aud_Raise in H.
Qed.

(** A claim set that passes the checks has no [exp] claim or one strictly
    after [now]. *)
Lemma validate_exp_Return (payload : dict) (now : Z) (u : unit) :
  jwt.validate_exp payload now = Return u ->
  forall v, dict_get "exp" payload = Some v ->
            exists e, jwt.python_int v = Return e /\ now < e.
Proof.
  unfold jwt.validate_exp. intros H v Hv. rewrite Hv in H.
  unfold obind, jwt.int_claim in H.
  destruct (jwt.python_int v) as [e|[]]; try discriminate H.
  destruct (Z.leb_spec e now); [discriminate|]. eauto.
Qed.

Lemma validate_claims_Return (payload : dict) (now : Z) (u : unit) :
  jwt.validate_claims payload now = Return u ->
  forall v, dict_get "exp" payload = Some v ->
            exists e, jwt.python_int v = Return e /\ now < e.
Proof.
  unfold jwt.validate_claims, obind. intros H.
  destruct (jwt.validate_iat payload now); [|discriminate].
  destruct (jwt.validate_nbf payload now); [|discriminate].
  destruct (jwt.validate_exp payload now) eqn:H3; [|discriminate].
  now apply (validate_exp_Return _ _ _ H3).
Qed.

(** The payload bytes come from the segments alone, whatever the key. *)
Lemma decode_complete_load (token key : string) (t : jwt.jws) :
  jwt.decode_complete token key = Return t -> jwt.load token = Return t.
Proof. intros H. now apply decode_complete_Return in H. Qed.

(** [decode] returns exactly the claim set of a token whose signature
    verifies and whose claims pass the checks. *)
Lemma decode_Return_iff (token key : string) (now : Z) (payload : dict) :
  jwt.decode token key now = Return payload <->
  jwt.signature_verifies key token = true
  /\ jwt.claims_of token = Some payload
  /\ jwt.validate_claims payload now = Return tt.
Proof.
  unfold jwt.decode, jwt.signature_verifies, jwt.claims_of, obind.
  destruct (jwt.decode_complete token key) as [t|] eqn:Hd;
    [|split; [discriminate | intros (H & _); discriminate]].
  rewrite (decode_complete_load _ _ _ Hd).
  destruct (jwt.loads_payload (jwt.payload_bytes t)) as [d|];
    [|split; [discriminate | intros (_ & H & _); discriminate]].
  split.
  - destruct (jwt.validate_claims d now) as [[]|] eqn:Hc; [|discriminate].
    intros [= <-]. auto.
  - intros (_ & [= <-] & ->). reflexivity.
Qed.

Lemma signature_verifies_hmac (key token : string) :
  jwt.signature_verifies key token = true ->
  exists t, jwt.load token = Return t
            /\ dict_get "alg" (jwt.header t) = Some (JStr "HS256")
            /\ jwt.signature t = hmac_sha256 key (jwt.signing_input t).
Proof.
  unfold jwt.signature_verifies.
  destruct (jwt.decode_complete token key) as [t|] eqn:Hd; [|discriminate].
  intros _. exists t. apply decode_complete_Return in Hd. tauto.
Qed.


(** Whatever [decode] raises is a PyJWT error, a [TypeError] or an
    [OverflowError]. *)
Lemma decode_Raise (token key : string) (now : Z) (e : exn) :
  jwt.decode token key now = Raise e ->
  (exists cls msg, e = PyJWTError cls msg) \/ (exists msg, e = TypeError msg)
  \/ (exists msg, e = OverflowError msg).
Proof.
  unfold jwt.decode, obind. intros H.
  destruct (jwt.decode_complete token key) as [t|] eqn:Hd;
    [| injection H as <-; apply decode_complete_Raise in Hd as [_ ?]; eauto].
  destruct (jwt.loads_payload (jwt.payload_bytes t)) as [d|] eqn:Hp;
    [| injection H as <-; apply loads_payload_Raise in Hp as [? ->]; eauto].
  destruct (jwt.validate_claims d now) as [|] eqn:Hc; [discriminate|].
  injection H as <-. apply validate_claims_Raise in Hc as [(c & m & -> & _)|?]; eauto.
Qed.


End JwtChecks.

(** ** The secret provider and the handlers, step by step *)

Section AppFacts.
Context {P : Platform} (cfg : Config).

Lemma derive_jwt_secret_Raise (p p' : Process) (e : exn) :
  derive_jwt_secret cfg p = (Raise e, p') ->
  e = HTTPException 500 "Failed to derive JWT key".
Proof.
  unfold derive_jwt_secret.
  destruct (dstack_get_key _ _); intros [= <- _]; reflexivity.
Qed.

Lemma get_jwt_secret_Raise (p p' : Process) (e : exn) :
  get_jwt_secret cfg p = (Raise e, p') ->
  e = HTTPException 500 "Failed to derive JWT key".
Proof.
  unfold get_jwt_secret.
  destruct (_jwt_secret p) as [s|]; [destruct (str_truthy s)|]; intros H;
    solve [discriminate H | apply (derive_jwt_secret_Raise _ _ _ H)].
Qed.

Lemma get_jwt_secret_cached (p : Process) (key : string) :
  _jwt_secret p = Some key -> key <> EmptyString ->
  get_jwt_secret cfg p = (Return key, p).
Proof.
  intros Hc Hk. unfold get_jwt_secret. rewrite Hc.
  apply str_truthy_iff in Hk. now rewrite Hk.
Qed.

(** A successful call leaves its key in the cache. *)
Lemma get_jwt_secret_stores (p p' : Process) (key : string) :
  get_jwt_secret cfg p = (Return key, p') -> _jwt_secret p' = Some key.
Proof.
  unfold get_jwt_secret, derive_jwt_secret.
  destruct (_jwt_secret p) as [s|] eqn:Hs; [destruct (str_truthy s)|];
    try destruct (dstack_get_key _ _); intros [= <- <-]; simpl; congruence.
Qed.

(** [validate] once the secret is at hand: the outcome of [jwt.decode]
    decides. *)
Lemma validate_with_secret (now : Z) (token key : string) (p p' : Process) :
  token <> EmptyString ->
  get_jwt_secret cfg p = (Return key, p') ->
  validate cfg now (Some token) p =
    match jwt.decode token key now with
    | Return payload =>
        if purpose_differs cfg payload
        then (Raise (HTTPException 401 "Invalid token purpose"), p')
        else match dict_get "sub" payload with
             | Some sub =>
                 (Return (JSONBody [("status", JStr "valid"); ("user", sub)]), p')
             | None => (Raise (KeyError "sub"), p')
             end
    | Raise e =>
        if is_ExpiredSignatureError e
        then (Raise (HTTPException 401 "Session expired"), p')
        else if is_InvalidTokenError e
        then (Raise (HTTPException 401 ("Invalid token: " ++ exn_str e)), p')
        else (Raise e, p')
    end.
Proof.
  intros Ht Hs. apply str_truthy_iff in Ht.
  unfold validate. rewrite Ht. simpl.
  unfold try_except, bind, lift. rewrite Hs.
  destruct (jwt.decode token key now) as [payload|e].
  - destruct (purpose_differs cfg payload); [reflexivity|].
    unfold subscript_sub. destruct (dict_get "sub" payload); reflexivity.
  - unfold validate_handlers.
    destruct (is_ExpiredSignatureError e); [reflexivity|].
    destruct (is_InvalidTokenError e); reflexivity.
Qed.

Lemma validate_without_secret (now : Z) (token : string) (p p' : Process) (e : exn) :
  token <> EmptyString ->
  get_jwt_secret cfg p = (Raise e, p') ->
  validate cfg now (Some token) p =
    (Raise (HTTPException 500 "Failed to derive JWT key"), p').
Proof.
  intros Ht Hs. apply str_truthy_iff in Ht.
  unfold validate. rewrite Ht. simpl.
  unfold try_except, bind. rewrite Hs.
  now rewrite (get_jwt_secret_Raise _ _ _ Hs).
Qed.

Lemma validate_no_token (now : Z) (p : Process) :
  validate cfg now None p = (Raise (HTTPException 401 "No session cookie"), p)
  /\ validate cfg now (Some EmptyString) p
     = (Raise (HTTPException 401 "No session cookie"), p).
Proof. split; reflexivity. Qed.

Lemma expiry_of_Return (t0 expiry : Z) :
  expiry_of cfg t0 = Return expiry ->
  expiry = t0 + 3600 * JWT_EXPIRY_HOURS cfg
  /\ datetime_min <= expiry <= datetime_max.
Proof.
  unfold expiry_of, timedelta_hours, datetime_add, obind.
  destruct (_ || _); [discriminate|].
  set (e := t0 + 3600 * JWT_EXPIRY_HOURS cfg).
  destruct (Z.ltb_spec e datetime_min); [discriminate|].
  destruct (Z.ltb_spec datetime_max e); [discriminate|].
  cbn [orb]. intros [= <-]. lia.
Qed.

(** What a successful [login] has done. *)
Lemma login_Return (t0 t1 : Z) (username password : string) (p p1 : Process)
    (r : response) :
  login cfg t0 t1 username password p = (Return r, p1) ->
  username = USERNAME cfg
  /\ checkpw cfg password = Return true
  /\ exists expiry key token,
       expiry_of cfg t0 = Return expiry
       /\ get_jwt_secret cfg p = (Return key, p1)
       /\ jwt.encode (session_claims cfg username expiry t1) key = Return token
       /\ r = session_redirect cfg token.
Proof.
  unfold login.
  destruct (String.eqb_spec username (USERNAME cfg)) as [Hu|Hu]; simpl; [|discriminate].
  unfold bind, try_except, lift, raise, ret.
  destruct (checkpw cfg password) as [[|]|]; simpl; try discriminate.
  destruct (expiry_of cfg t0) as [expiry|]; [|discriminate].
  destruct (get_jwt_secret cfg p) as [[key|e] p'] eqn:Hs; [|discriminate].
  destruct (jwt.encode _ key) as [token|] eqn:He; [|discriminate].
  intros [= <- <-]. repeat split; eauto 10.
Qed.

(** With the configured credentials, an expiry that fits a [datetime], a
    secret at hand and a key PyJWT takes, [login] issues the token
    [jwt.encode] writes. *)
Lemma login_accepts (t0 t1 expiry : Z) (username password key : string)
    (p p1 : Process) :
  username = USERNAME cfg ->
  checkpw cfg password = Return true ->
  expiry_of cfg t0 = Return expiry ->
  get_jwt_secret cfg p = (Return key, p1) ->
  is_asymmetric_key key = false ->
  exists token,
    jwt.encode (session_claims cfg username expiry t1) key = Return token
    /\ login cfg t0 t1 username password p
       = (Return (session_redirect cfg token), p1).
Proof.
  intros -> Hpw He Hs Hk.
  unfold login. rewrite String.eqb_refl. simpl.
  unfold bind, try_except, lift, raise, ret. rewrite Hpw. simpl. rewrite He, Hs.
  unfold jwt.encode, jwt.prepare_key. rewrite Hk. simpl.
  eexists. split; reflexivity.
Qed.

Lemma login_rejects (t0 t1 : Z) (username password : string) (p : Process) :
  username <> USERNAME cfg \/ checkpw cfg password <> Return true ->
  login cfg t0 t1 username password p
  = (Raise (HTTPException 401 "Invalid credentials"), p).
Proof.
  intros H. unfold login.
  destruct (String.eqb_spec username (USERNAME cfg)) as [Hu|Hu]; simpl; [|reflexivity].
  destruct H as [H|H]; [contradiction|].
  unfold bind, try_except, lift, raise, ret.
  destruct (checkpw cfg password) as [[|]|]; simpl; try reflexivity.
  now contradiction H.
Qed.

(** A handler changes the process only through [get_jwt_secret]. *)
Lemma handle_state (r : request) (p : Process) :
  snd (handle cfg r p) = p \/ snd (handle cfg r p) = snd (get_jwt_secret cfg p).
Proof.
  destruct r as [ | t0 t1 username password | now c | | ]; simpl.
  - now left.
  - unfold login. destruct (String.eqb username (USERNAME cfg)); simpl; [|now left].
    unfold bind, try_except, lift, raise, ret.
    destruct (checkpw cfg password) as [[|]|]; simpl; try now left.
    destruct (expiry_of cfg t0) as [expiry|]; [|now left].
    destruct (get_jwt_secret cfg p) as [[key|e] p']; simpl; [|now right].
    destruct (jwt.encode _ key); simpl; now right.
  - unfold validate. destruct c as [token|]; [|now left].
    destruct (str_truthy token); simpl; [|now left].
    unfold try_except, bind, lift, raise, ret.
    destruct (get_jwt_secret cfg p) as [[key|e] p']; simpl.
    + destruct (jwt.decode token key now) as [payload|e]; simpl.
      * destruct (purpose_differs cfg payload); simpl; [now right|].
        destruct (subscript_sub payload); simpl; [now right|].
        unfold validate_handlers.
        destruct (is_ExpiredSignatureError _); [now right|].
        destruct (is_InvalidTokenError _); now right.
      * unfold validate_handlers.
        destruct (is_ExpiredSignatureError _); [now right|].
        destruct (is_InvalidTokenError _); now right.
    + unfold validate_handlers.
        destruct (is_ExpiredSignatureError _); [now right|].
        destruct (is_InvalidTokenError _); now right.
  - now left.
  - now left.
Qed.

(** Once a non-empty key is cached, no request changes the process. *)
Lemma serve_cached (rs : list request) (p : Process) (key : string) :
  _jwt_secret p = Some key -> key <> EmptyString -> serve cfg rs p = p.
Proof.
  intros Hc Hk. induction rs as [|r rs IH]; simpl; [reflexivity|].
  destruct (handle_state r p) as [-> | ->]; [exact IH|].
  rewrite (get_jwt_secret_cached _ _ Hc Hk). exact IH.
Qed.

Lemma session_claims_valid (username : string) (expiry iat now : Z) :
  iat <= now < expiry ->
  jwt.validate_claims (session_claims cfg username expiry iat) now = Return tt.
Proof.
  intros [H1 H2].
  unfold jwt.validate_claims, jwt.validate_iat, jwt.validate_nbf, jwt.validate_exp,
    jwt.validate_aud, session_claims; simpl.
  destruct (Z.gtb_spec iat now); [lia|]. simpl.
  destruct (Z.leb_spec expiry now); [lia|]. reflexivity.
Qed.

(** The core of the round trip: a token [login] signed under [key] is
    accepted by [validate] in any process whose secret is [key], between
    its [iat] and its [exp]. *)
Lemma issued_token_accepted (expiry iat now : Z) (username token key : string)
    (p2 p2' : Process) :
  jwt.encode (session_claims cfg username expiry iat) key = Return token ->
  jwt.wire_faithful (session_claims cfg username expiry iat) key ->
  get_jwt_secret cfg p2 = (Return key, p2') ->
  iat <= now < expiry ->
  validate cfg now (Some token) p2 =
    (Return (JSONBody [("status", JStr "valid"); ("user", JStr username)]), p2').
Proof.
  intros Henc Hw Hs Ht.
  assert (Hne : token <> EmptyString).
  { apply encode_Return in Henc as [_ ->]. apply str_truthy_iff, str_truthy_app_dot. }
  rewrite (validate_with_secret now token key p2 p2' Hne Hs).
  rewrite (decode_encoded _ _ _ now Hw Henc
             (session_claims_valid username expiry iat now Ht)).
  unfold purpose_differs, session_claims. simpl.
  now rewrite String.eqb_refl.
Qed.

End AppFacts.

(* ================================================================= *)
(** * The session-token life cycle *)

Section Lifecycle.
Context {P : Platform} (cfg : Config).

(** C1. Round trip: for the configured user name and a password that
    [bcrypt.checkpw] accepts, with an expiry that fits a [datetime] and the
    signing secret at hand, [login] answers with the redirect to
    [/code-server] that sets the cookie [vibevm_session], and a later
    [validate] of the value of that cookie, in a process whose signing
    secret is the one the token was signed with and at an instant between
    the token's [iat] and its [exp], answers
    [{"status": "valid", "user": username}] with the user name of the
    login. The wire (base64url, JSON) is required to carry this token's
    three segments unchanged. *)
Theorem login_validate_roundtrip
    (t0 t1 expiry now : Z) (username password key : string) (p p1 p2 : Process) :
  username = USERNAME cfg ->
  checkpw cfg password = Return true ->
  expiry_of cfg t0 = Return expiry ->
  get_jwt_secret cfg p = (Return key, p1) ->
  is_asymmetric_key key = false ->
  jwt.wire_faithful (session_claims cfg username expiry t1) key ->
  fst (get_jwt_secret cfg p2) = Return key ->
  t1 <= now < expiry ->
  exists token,
    login cfg t0 t1 username password p
    = (Return (RedirectResponse "/code-server" 302
                 [ {| cookie_key := "vibevm_session"; cookie_value := token;
                      max_age := Some (JWT_EXPIRY_HOURS cfg * 3600);
                      expires := None; path := "/"; httponly := true;
                      secure := false; samesite := "lax" |} ]),
       p1)
    /\ token <> EmptyString
    /\ validate cfg now (Some token) p2
       = (Return (JSONBody [("status", JStr "valid"); ("user", JStr username)]),
          snd (get_jwt_secret cfg p2)).
Proof.
  intros Hu Hpw He Hkey Hk Hw Hsame Ht.
  destruct (login_accepts cfg t0 t1 expiry username password key p p1 Hu Hpw He Hkey Hk)
    as (token & Henc & Hlogin).
  exists token. split; [exact Hlogin|].
  split.
  { apply encode_Return in Henc as [_ ->]. apply str_truthy_iff, str_truthy_app_dot. }
  apply (issued_token_accepted cfg expiry t1 now username token key); try assumption.
  destruct (get_jwt_secret cfg p2) as [o q]. simpl in Hsame |- *. now subst o.
Qed.

(** C4. Credential validation fails closed: when the user name is not the
    configured one, or [bcrypt.checkpw] does anything but return [True] for
    the password (returns [False], or raises, as does [password.encode()]),
    [login] raises [HTTPException(401, "Invalid credentials")], which the
    HTTP boundary answers with status 401 and no cookie, and the process is
    left as it was. *)
Theorem login_fails_closed
    (t0 t1 : Z) (username password : string) (p : Process) :
  username <> USERNAME cfg \/ checkpw cfg password <> Return true ->
  login cfg t0 t1 username password p
  = (Raise (HTTPException 401 "Invalid credentials"), p)
  /\ http_boundary (fst (login cfg t0 t1 username password p))
     = {| status := 401; body := JObj [("detail", JStr "Invalid credentials")];
          location := None; set_cookie := [] |}.
Proof.
  intros H. rewrite (login_rejects cfg t0 t1 username password p H).
  split; reflexivity.
Qed.

(** C9. Logout is stateless: [logout] answers every request, in every
    process, with a 302 to [/login] that sets [vibevm_session] empty with
    [Max-Age=0], and leaves the process as it was; a later [validate]
    therefore answers as it would have without the logout, and a token a
    [login] issued is still accepted after the logout, until it expires. *)
Theorem logout_is_stateless (q : Process) :
  logout q
  = (Return (RedirectResponse "/login" 302 [delete_cookie "vibevm_session"]), q)
  /\ http_boundary (fst (logout q))
     = {| status := 302; body := JNull; location := Some "/login";
          set_cookie := [ {| cookie_key := "vibevm_session";
                             cookie_value := EmptyString;
                             max_age := Some 0; expires := Some 0;
                             path := "/"; httponly := false; secure := false;
                             samesite := "lax" |} ] |}
  /\ (forall now cookie,
        validate cfg now cookie (snd (logout q)) = validate cfg now cookie q)
  /\ (forall t0 t1 now username password token key p p1,
        login cfg t0 t1 username password p
        = (Return (session_redirect cfg token), p1) ->
        get_jwt_secret cfg p = (Return key, p1) ->
        jwt.wire_faithful
          (session_claims cfg username (t0 + 3600 * JWT_EXPIRY_HOURS cfg) t1) key ->
        fst (get_jwt_secret cfg q) = Return key ->
        t1 <= now < t0 + 3600 * JWT_EXPIRY_HOURS cfg ->
        validate cfg now (Some token) (snd (logout q))
        = (Return (JSONBody [("status", JStr "valid"); ("user", JStr username)]),
           snd (get_jwt_secret cfg q))).
Proof.
  repeat split.
  intros t0 t1 now username password token key p p1 Hlogin Hkey Hw Hsame Ht.
  simpl.
  apply login_Return in Hlogin as (_ & _ & expiry & key' & token' & He & Hkey' & Henc & Hr).
  rewrite Hkey in Hkey'. injection Hkey' as <-. injection Hr as <-.
  apply expiry_of_Return in He as [-> _].
  apply (issued_token_accepted cfg (t0 + 3600 * JWT_EXPIRY_HOURS cfg) t1 now
           username token key); try assumption.
  destruct (get_jwt_secret cfg q) as [o q']. simpl in Hsame |- *. now subst o.
Qed.

(** C10. A token without a [purpose] claim is never accepted, whatever the
    state of the process; and when its signature verifies under the current
    secret and its claims pass PyJWT's checks (so it is not expired), the
    rejection is [HTTPException(401, "Invalid token purpose")]: the absent
    claim counts as a purpose other than the configured one. *)
Theorem token_without_purpose_rejected
    (now : Z) (token : string) (payload : dict) :
  jwt.claims_of token = Some payload ->
  dict_get "purpose" payload = None ->
  (forall p r p', validate cfg now (Some token) p <> (Return r, p'))
  /\ (forall key p p',
        get_jwt_secret cfg p = (Return key, p') ->
        jwt.signature_verifies key token = true ->
        jwt.validate_claims payload now = Return tt ->
        validate cfg now (Some token) p
        = (Raise (HTTPException 401 "Invalid token purpose"), p')
        /\ auth_error_of "Invalid token purpose" = Some WrongPurpose).
Proof.
  intros Hc Hp. split.
  - intros p r p' H.
    destruct (string_dec token EmptyString) as [->|Hne]; [discriminate H|].
    destruct (get_jwt_secret cfg p) as [[key|e] q] eqn:Hs.
    2:{ rewrite (validate_without_secret cfg now token p q e Hne Hs) in H.
        discriminate H. }
    rewrite (validate_with_secret cfg now token key p q Hne Hs) in H.
    destruct (jwt.decode token key now) as [d|e] eqn:Hd.
    + apply decode_Return_iff in Hd as (_ & Hc' & _).
      rewrite Hc in Hc'. injection Hc' as <-.
      unfold purpose_differs in H. rewrite Hp in H. discriminate H.
    + destruct (is_ExpiredSignatureError e); [discriminate H|].
      destruct (is_InvalidTokenError e); discriminate H.
  - intros key p p' Hs Hsig Hv.
    assert (Hne : token <> EmptyString) by (intros ->; discriminate Hsig).
    rewrite (validate_with_secret cfg now token key p p' Hne Hs).
    rewrite (proj2 (decode_Return_iff token key now payload) (conj Hsig (conj Hc Hv))).
    unfold purpose_differs. rewrite Hp. split; reflexivity.
Qed.

End Lifecycle.

(* ================================================================= *)
(** * Where the handlers depart from the specification's wording *)

Section Departures.
Context {P : Platform} (cfg : Config).

Lemma purpose_differs_false (payload : dict) :
  purpose_differs cfg payload = false ->
  dict_get "purpose" payload = Some (JStr (JWT_PURPOSE cfg)).
Proof.
  unfold purpose_differs.
  destruct (dict_get "purpose" payload) as [[| | | |s| |]|]; try discriminate.
  destruct (String.eqb_spec s (JWT_PURPOSE cfg)); [now subst | discriminate].
Qed.


(** What [validate] has checked when it accepts. *)
Lemma validate_Return
    (now : Z) (cookie : option string) (p p' : Process) (r : response) :
  validate cfg now cookie p = (Return r, p') ->
  exists token key t payload sub,
    cookie = Some token
    /\ get_jwt_secret cfg p = (Return key, p')
    /\ jwt.load token = Return t
    /\ jwt.signature t = hmac_sha256 key (jwt.signing_input t)
    /\ jwt.signature_verifies key token = true
    /\ jwt.claims_of token = Some payload
    /\ (forall v, dict_get "exp" payload = Some v ->
                  exists e, jwt.python_int v = Return e /\ now < e)
    /\ dict_get "purpose" payload = Some (JStr (JWT_PURPOSE cfg))
    /\ dict_get "sub" payload = Some sub
    /\ r = JSONBody [("status", JStr "valid"); ("user", sub)].
Proof.
  intros H. destruct cookie as [token|]; [|discriminate H].
  destruct (string_dec token EmptyString) as [->|Hne]; [discriminate H|].
  destruct (get_jwt_secret cfg p) as [[key|e] q] eqn:Hs.
  2:{ rewrite (validate_without_secret cfg now token p q e Hne Hs) in H. discriminate H. }
  rewrite (validate_with_secret cfg now token key p q Hne Hs) in H.
  destruct (jwt.decode token key now) as [payload|e] eqn:Hd.
  2:{ destruct (is_ExpiredSignatureError e); [discriminate H|].
      destruct (is_InvalidTokenError e); [discriminate H|].
      discriminate H. }
  destruct (purpose_differs cfg payload) eqn:Hp; [discriminate H|].
  destruct (dict_get "sub" payload) as [sub|] eqn:Hsub; [|discriminate H].
  injection H as <- <-.
  apply decode_Return_iff in Hd as (Hsig & Hc & Hv).
  destruct (signature_verifies_hmac key token Hsig) as (t & Hl & _ & Hmac).
  exists token, key, t, payload, sub.
  repeat split; try assumption; try reflexivity.
  - exact (validate_claims_Return payload now tt Hv).
  - now apply purpose_differs_false.
Qed.

(** A claim set without [iat], [nbf], [exp] and [aud] passes the checks of
    [jwt.decode] at every instant. *)
Lemma validate_claims_untimed (payload : dict) (now : Z) :
  dict_get "iat" payload = None ->
  dict_get "nbf" payload = None ->
  dict_get "exp" payload = None ->
  dict_get "aud" payload = None ->
  jwt.validate_claims payload now = Return tt.
Proof.
  intros Hi Hn He Ha.
  unfold jwt.validate_claims, jwt.validate_iat, jwt.validate_nbf, jwt.validate_exp,
    jwt.validate_aud.
  now rewrite Hi, Hn, He, Ha.
Qed.

(** C2 (amended). [validate] accepts a token only if its signature segment
    is the HMAC-SHA256 of its signing input under the current secret, its
    [purpose] claim is the configured purpose, and its [exp] claim, when
    it has one, is strictly after [now]; so a token whose signature does
    not verify under the secret [get_jwt_secret] returns, whose purpose is
    missing or another, or whose [exp] claim is there and is not an
    instant after [now], is not accepted. The [exp] claim itself is not
    demanded: a correctly signed token with the configured purpose and a
    [sub] claim that carries no [exp] claim (and no [iat], [nbf] or [aud]
    claim) is accepted at every instant. *)
Theorem validate_accepts_only_valid_tokens (now : Z) :
  (forall cookie p p' r,
     validate cfg now cookie p = (Return r, p') ->
     exists token key t payload sub,
       cookie = Some token
       /\ get_jwt_secret cfg p = (Return key, p')
       /\ jwt.load token = Return t
       /\ jwt.signature t = hmac_sha256 key (jwt.signing_input t)
       /\ jwt.signature_verifies key token = true
       /\ jwt.claims_of token = Some payload
       /\ (forall v, dict_get "exp" payload = Some v ->
                     exists e, jwt.python_int v = Return e /\ now < e)
       /\ dict_get "purpose" payload = Some (JStr (JWT_PURPOSE cfg))
       /\ dict_get "sub" payload = Some sub
       /\ r = JSONBody [("status", JStr "valid"); ("user", sub)])
  /\ (forall token p r q,
        (forall key p', get_jwt_secret cfg p = (Return key, p') ->
                        jwt.signature_verifies key token = false)
        \/ (exists payload,
              jwt.claims_of token = Some payload
              /\ (dict_get "purpose" payload <> Some (JStr (JWT_PURPOSE cfg))
                  \/ exists v,
                       dict_get "exp" payload = Some v
                       /\ forall e, jwt.python_int v = Return e -> e <= now)) ->
        validate cfg now (Some token) p <> (Return r, q))
  /\ (forall token key payload sub p p',
        get_jwt_secret cfg p = (Return key, p') ->
        jwt.signature_verifies key token = true ->
        jwt.claims_of token = Some payload ->
        dict_get "exp" payload = None ->
        dict_get "iat" payload = None ->
        dict_get "nbf" payload = None ->
        dict_get "aud" payload = None ->
        dict_get "purpose" payload = Some (JStr (JWT_PURPOSE cfg)) ->
        dict_get "sub" payload = Some sub ->
        validate cfg now (Some token) p
        = (Return (JSONBody [("status", JStr "valid"); ("user", sub)]), p')).
Proof.
  split; [|split].
  - intros cookie p p' r. apply validate_Return.
  - intros token p r q Hbad Hv.
    apply validate_Return in Hv
      as (token' & key & t & payload & sub & Hc & Hs & _ & _ & Hsig & Hcl & Hexp
          & Hpur & _).
    injection Hc as <-.
    destruct Hbad as [Hbad | (payload' & Hcl' & Hbad)];
      [specialize (Hbad key q Hs); congruence|].
    rewrite Hcl in Hcl'. injection Hcl' as <-.
    destruct Hbad as [Hbad | (v & Hv & Hle)]; [contradiction|].
    destruct (Hexp v Hv) as (e & He & Hlt). specialize (Hle e He). lia.
  - intros token key payload sub p p' Hs Hsig Hc He Hi Hn Ha Hp Hsub.
    assert (Hne : token <> EmptyString) by (intros ->; discriminate Hsig).
    rewrite (validate_with_secret cfg now token key p p' Hne Hs).
    rewrite (proj2 (decode_Return_iff token key now payload)
               (conj Hsig (conj Hc (validate_claims_untimed payload now Hi Hn He Ha)))).
    unfold purpose_differs. rewrite Hp, String.eqb_refl, Hsub. reflexivity.
Qed.


(** C5. A token that is correctly signed, passes PyJWT's checks and carries
    the configured purpose but no [sub] claim makes [validate] raise
    [KeyError], which neither [except] clause catches: the caller gets the
    server's 500, not the 401 of a rejection. *)
Theorem validate_missing_sub_escapes
    (now : Z) (token key : string) (payload : dict) (p p' : Process) :
  get_jwt_secret cfg p = (Return key, p') ->
  jwt.signature_verifies key token = true ->
  jwt.claims_of token = Some payload ->
  jwt.validate_claims payload now = Return tt ->
  dict_get "purpose" payload = Some (JStr (JWT_PURPOSE cfg)) ->
  dict_get "sub" payload = None ->
  validate cfg now (Some token) p = (Raise (KeyError "sub"), p')
  /\ status (http_boundary (fst (validate cfg now (Some token) p))) = 500.
Proof.
  intros Hs Hsig Hc Hv Hp Hsub.
  assert (Hne : token <> EmptyString) by (intros ->; discriminate Hsig).
  rewrite (validate_with_secret cfg now token key p p' Hne Hs).
  rewrite (proj2 (decode_Return_iff token key now payload) (conj Hsig (conj Hc Hv))).
  unfold purpose_differs. rewrite Hp, String.eqb_refl, Hsub. split; reflexivity.
Qed.


(** C7 (amended). Token issuance: a successful [login] answers with the
    redirect to [/code-server] whose cookie [vibevm_session] has for value
    the token [jwt.encode(claims, key, "HS256")], where [key] is what
    [get_jwt_secret] returned and [claims] has [iat = t1], the reading of
    the clock taken when the claims are built,
    [exp = t0 + JWT_EXPIRY_HOURS] hours, from the reading [t0] taken just
    before, and [purpose = JWT_PURPOSE]; so [exp = iat + JWT_EXPIRY_HOURS]
    hours when both readings fall in the same second, and no more than
    that when the second reading is not before the first (the clock was
    not set back in between). The token's last segment is the HMAC-SHA256
    of the first two under [key]. A process started without
    [JWT_EXPIRY_HOURS] in its environment has 24 hours. *)
Theorem login_issues_session_token
    (t0 t1 : Z) (username password : string) (p p1 : Process) (r : response) :
  login cfg t0 t1 username password p = (Return r, p1) ->
  (exists key token iat exp,
     let claims := [ ("sub", JStr username); ("exp", JInt exp);
                     ("iat", JInt iat); ("purpose", JStr (JWT_PURPOSE cfg)) ] in
     let signing_input := jwt.signing_input_of jwt.jose_header claims in
     iat = t1
     /\ exp = t0 + 3600 * JWT_EXPIRY_HOURS cfg
     /\ (t0 = t1 -> exp = iat + 3600 * JWT_EXPIRY_HOURS cfg)
     /\ (t0 <= t1 -> exp <= iat + 3600 * JWT_EXPIRY_HOURS cfg)
     /\ get_jwt_secret cfg p = (Return key, p1)
     /\ jwt.encode claims key = Return token
     /\ token = signing_input ++ "." ++ base64url_encode (hmac_sha256 key signing_input)
     /\ dict_get "alg" jwt.jose_header = Some (JStr "HS256")
     /\ token <> EmptyString
     /\ r = RedirectResponse "/code-server" 302
              [ {| cookie_key := "vibevm_session"; cookie_value := token;
                   max_age := Some (JWT_EXPIRY_HOURS cfg * 3600);
                   expires := None; path := "/"; httponly := true;
                   secure := false; samesite := "lax" |} ])
  /\ (forall environ salt c,
        startup environ salt = Return c ->
        environ "JWT_EXPIRY_HOURS" = None -> JWT_EXPIRY_HOURS c = 24).
Proof.
  intros Hlogin. split.
  - apply login_Return in Hlogin as (_ & _ & expiry & key & token & He & Hkey & Henc & ->).
    apply expiry_of_Return in He as [-> _].
    exists key, token, t1, (t0 + 3600 * JWT_EXPIRY_HOURS cfg).
    apply encode_Return in Henc as Htok. destruct Htok as [_ Htok].
    cbv zeta. repeat split; try assumption; try lia; try reflexivity.
    rewrite Htok. apply str_truthy_iff, str_truthy_app_dot.
  - intros environ salt c Hs Hnone. unfold startup in Hs. rewrite Hnone in Hs.
    destruct (environ "VIBEVM_PASSWORD") as [pw|]; [|discriminate Hs].
    destruct (str_truthy pw); [|discriminate Hs].
    unfold obind in Hs. simpl in Hs.
    destruct (str_encode _); [|discriminate Hs].
    destruct (bcrypt_hashpw _ _); [|discriminate Hs].
    injection Hs as <-. reflexivity.
Qed.

(** C8 (amended). Once [get_jwt_secret] has returned a non-empty key, the
    process never changes again, whatever requests it serves: every later
    call returns that key from the cache without invoking the
    key-management service, and every token a later [login] issues is
    signed with it. *)
Theorem jwt_secret_cached
    (p p1 : Process) (key : string) (rs : list request) :
  get_jwt_secret cfg p = (Return key, p1) ->
  key <> EmptyString ->
  get_jwt_secret cfg (serve cfg rs p1) = (Return key, serve cfg rs p1)
  /\ _jwt_secret (serve cfg rs p1) = Some key
  /\ dstack_calls (serve cfg rs p1) = dstack_calls p1
  /\ (forall t0 t1 username password token q,
        login cfg t0 t1 username password (serve cfg rs p1)
        = (Return (session_redirect cfg token), q) ->
        jwt.encode
          (session_claims cfg username (t0 + 3600 * JWT_EXPIRY_HOURS cfg) t1) key
        = Return token).
Proof.
  intros Hs Hk.
  pose proof (get_jwt_secret_stores cfg p p1 key Hs) as Hc.
  rewrite (serve_cached cfg rs p1 key Hc Hk).
  pose proof (get_jwt_secret_cached cfg p1 key Hc Hk) as Hg.
  repeat split; try assumption.
  intros t0 t1 username password token q Hl.
  apply login_Return in Hl as (_ & _ & expiry & key' & token' & He & Hkey' & Henc & Hr).
  apply expiry_of_Return in He as [-> _].
  rewrite Hg in Hkey'. injection Hkey' as <- _. now injection Hr as <-.
Qed.

End Departures.

(* ================================================================= *)
(** * The handlers at work on the executable platform *)

(** On the executable platform the configuration is what [startup] reads
    from the environment. *)
Lemma demo_startup :
  startup (P:=Demo.platform) Demo.environ "salt" = Return Demo.cfg.
Proof. reflexivity. Qed.

(** C1 at work: [admin] logs in at 1000 and validates the cookie at 2000. *)
Lemma login_validate_roundtrip_witness :
  exists token,
    login (P:=Demo.platform) Demo.cfg 1000 1000 "admin" "secret123" fresh_process
    = (Return (RedirectResponse "/code-server" 302
                 [ {| cookie_key := "vibevm_session"; cookie_value := token;
                      max_age := Some (JWT_EXPIRY_HOURS Demo.cfg * 3600);
                      expires := None; path := "/"; httponly := true;
                      secure := false; samesite := "lax" |} ]),
       Demo.warm)
    /\ token <> EmptyString
    /\ validate (P:=Demo.platform) Demo.cfg 2000 (Some token) Demo.warm
       = (Return (JSONBody [("status", JStr "valid"); ("user", JStr "admin")]),
          snd (get_jwt_secret (P:=Demo.platform) Demo.cfg Demo.warm)).
Proof.
  apply (login_validate_roundtrip (P:=Demo.platform) Demo.cfg 1000 1000 87400 2000
           "admin" "secret123" "0f1e2d3c" fresh_process Demo.warm Demo.warm).
  - reflexivity.
  - vm_compute. reflexivity.
  - vm_compute. reflexivity.
  - vm_compute. reflexivity.
  - reflexivity.
  - vm_compute. repeat split.
  - reflexivity.
  - lia.
Defined.

(** C4 at work: the right user with a wrong password, a wrong user with
    the right password, and a comparison that raises. *)
Lemma login_fails_closed_witness :
  (login (P:=Demo.platform) Demo.cfg 1000 1000 "admin" "wrongpass" fresh_process
   = (Raise (HTTPException 401 "Invalid credentials"), fresh_process)
   /\ http_boundary
        (fst (login (P:=Demo.platform) Demo.cfg 1000 1000 "admin" "wrongpass"
                fresh_process))
      = {| status := 401; body := JObj [("detail", JStr "Invalid credentials")];
           location := None; set_cookie := [] |})
  /\ (login (P:=Demo.platform) Demo.cfg 1000 1000 "root" "secret123" fresh_process
      = (Raise (HTTPException 401 "Invalid credentials"), fresh_process)
      /\ http_boundary
           (fst (login (P:=Demo.platform) Demo.cfg 1000 1000 "root" "secret123"
                   fresh_process))
         = {| status := 401; body := JObj [("detail", JStr "Invalid credentials")];
              location := None; set_cookie := [] |})
  /\ (checkpw (P:=Demo.platform) Demo.corrupt_cfg "secret123"
      = Raise (ValueError "Invalid salt")
      /\ login (P:=Demo.platform) Demo.corrupt_cfg 1000 1000 "admin" "secret123"
           fresh_process
         = (Raise (HTTPException 401 "Invalid credentials"), fresh_process)).
Proof.
  split; [|split].
  - apply (login_fails_closed (P:=Demo.platform) Demo.cfg 1000 1000
             "admin" "wrongpass" fresh_process).
    right. vm_compute. discriminate.
  - apply (login_fails_closed (P:=Demo.platform) Demo.cfg 1000 1000
             "root" "secret123" fresh_process).
    left. vm_compute. discriminate.
  - split; [reflexivity|].
    apply (login_fails_closed (P:=Demo.platform) Demo.corrupt_cfg 1000 1000
             "admin" "secret123" fresh_process).
    right. vm_compute. discriminate.
Defined.

(** C7, as stated, fails: when the clock ticks between the two readings
    that [login] takes (99, then 100), the token's [exp] is not its [iat]
    plus the 24 hours. *)
Lemma login_between_two_seconds :
  login (P:=Demo.platform) Demo.cfg 99 100 "admin" "secret123" fresh_process
  = (Return (session_redirect Demo.cfg
               (Demo.token_of [ ("sub", JStr "admin"); ("exp", JInt 86499);
                                ("iat", JInt 100);
                                ("purpose", JStr "caliguland-session") ])),
     Demo.warm)
  /\ jwt.claims_of (P:=Demo.platform)
       (Demo.token_of [ ("sub", JStr "admin"); ("exp", JInt 86499);
                        ("iat", JInt 100);
                        ("purpose", JStr "caliguland-session") ])
     = Some [ ("sub", JStr "admin"); ("exp", JInt 86499); ("iat", JInt 100);
              ("purpose", JStr "caliguland-session") ]
  /\ 86499 <> 100 + 3600 * JWT_EXPIRY_HOURS Demo.cfg.
Proof.
  split; [vm_compute; reflexivity|]. split; [vm_compute; reflexivity|].
  simpl. lia.
Qed.

(** C7 (amended) at work: the claims of the token issued at 1000 with the
    default 24 hours. *)
Lemma login_issues_session_token_witness :
  (exists key token iat exp,
     let claims := [ ("sub", JStr "admin"); ("exp", JInt exp);
                     ("iat", JInt iat); ("purpose", JStr (JWT_PURPOSE Demo.cfg)) ] in
     let signing_input := jwt.signing_input_of (P:=Demo.platform) jwt.jose_header claims in
     iat = 1000
     /\ exp = 1000 + 3600 * JWT_EXPIRY_HOURS Demo.cfg
     /\ (1000 = 1000 -> exp = iat + 3600 * JWT_EXPIRY_HOURS Demo.cfg)
     /\ (1000 <= 1000 -> exp <= iat + 3600 * JWT_EXPIRY_HOURS Demo.cfg)
     /\ get_jwt_secret (P:=Demo.platform) Demo.cfg fresh_process = (Return key, Demo.warm)
     /\ jwt.encode (P:=Demo.platform) claims key = Return token
     /\ token = signing_input ++ "."
                ++ base64url_encode (Platform:=Demo.platform)
                     (hmac_sha256 (Platform:=Demo.platform) key signing_input)
     /\ dict_get "alg" jwt.jose_header = Some (JStr "HS256")
     /\ token <> EmptyString
     /\ session_redirect Demo.cfg Demo.session_token
        = RedirectResponse "/code-server" 302
            [ {| cookie_key := "vibevm_session"; cookie_value := token;
                 max_age := Some (JWT_EXPIRY_HOURS Demo.cfg * 3600);
                 expires := None; path := "/"; httponly := true;
                 secure := false; samesite := "lax" |} ])
  /\ (forall environ salt c,
        startup (P:=Demo.platform) environ salt = Return c ->
        environ "JWT_EXPIRY_HOURS" = None -> JWT_EXPIRY_HOURS c = 24).
Proof.
  apply (login_issues_session_token (P:=Demo.platform) Demo.cfg 1000 1000
           "admin" "secret123" fresh_process Demo.warm
           (session_redirect Demo.cfg Demo.session_token)).
  vm_compute. reflexivity.
Defined.

(** C10 at work: a token signed by the process itself whose payload has a
    subject and an expiry but no purpose. *)
Lemma token_without_purpose_rejected_witness :
  (forall p r p',
     validate (P:=Demo.platform) Demo.cfg 2000
       (Some (Demo.token_of [("sub", JStr "admin"); ("exp", JInt 9000)])) p
     <> (Return r, p'))
  /\ validate (P:=Demo.platform) Demo.cfg 2000
       (Some (Demo.token_of [("sub", JStr "admin"); ("exp", JInt 9000)])) Demo.warm
     = (Raise (HTTPException 401 "Invalid token purpose"), Demo.warm).
Proof.
  destruct (token_without_purpose_rejected (P:=Demo.platform) Demo.cfg 2000
              (Demo.token_of [("sub", JStr "admin"); ("exp", JInt 9000)])
              [("sub", JStr "admin"); ("exp", JInt 9000)]) as [H1 H2];
    [vm_compute; reflexivity | reflexivity |].
  split; [exact H1|].
  apply (H2 "0f1e2d3c" Demo.warm Demo.warm); vm_compute; reflexivity.
Defined.

(** C9 at work: the token issued at 1000 is validated at 2000, after a
    logout. *)
Lemma logout_is_stateless_witness :
  validate (P:=Demo.platform) Demo.cfg 2000 (Some Demo.session_token)
    (snd (logout Demo.warm))
  = (Return (JSONBody [("status", JStr "valid"); ("user", JStr "admin")]),
     snd (get_jwt_secret (P:=Demo.platform) Demo.cfg Demo.warm)).
Proof.
  apply (proj2 (proj2 (proj2 (logout_is_stateless (P:=Demo.platform) Demo.cfg Demo.warm)))
           1000 1000 2000 "admin" "secret123" Demo.session_token "0f1e2d3c"
           fresh_process Demo.warm).
  - vm_compute. reflexivity.
  - vm_compute. reflexivity.
  - vm_compute. repeat split.
  - reflexivity.
  - simpl. lia.
Defined.

(** C2, as stated, fails: a token signed with the current secret that
    carries the configured purpose and no [exp] claim is accepted, although
    it has no expiry that lies in the future. *)
Lemma token_without_exp_is_accepted :
  validate (P:=Demo.platform) Demo.cfg 2000
    (Some (Demo.token_of [ ("sub", JStr "admin");
                           ("purpose", JStr "caliguland-session") ]))
    Demo.warm
  = (Return (JSONBody [("status", JStr "valid"); ("user", JStr "admin")]), Demo.warm)
  /\ jwt.claims_of (P:=Demo.platform)
       (Demo.token_of [ ("sub", JStr "admin");
                        ("purpose", JStr "caliguland-session") ])
     = Some [("sub", JStr "admin"); ("purpose", JStr "caliguland-session")]
  /\ ~ jwt.expires_after (P:=Demo.platform)
         [("sub", JStr "admin"); ("purpose", JStr "caliguland-session")] 2000.
Proof.
  split; [vm_compute; reflexivity|]. split; [vm_compute; reflexivity|].
  intros (v & e & Hv & _). discriminate Hv.
Qed.

(** C2 (amended) at work: what the acceptance of the session token at 2000
    implies; the same token is not accepted at 90000, after its [exp]; and
    a token without [exp] is accepted at 90000. *)
Lemma validate_accepts_only_valid_tokens_witness :
  (exists token key t payload sub,
     Some Demo.session_token = Some token
     /\ get_jwt_secret (P:=Demo.platform) Demo.cfg Demo.warm = (Return key, Demo.warm)
     /\ jwt.load (P:=Demo.platform) token = Return t
     /\ jwt.signature t
        = hmac_sha256 (Platform:=Demo.platform) key (jwt.signing_input t)
     /\ jwt.signature_verifies (P:=Demo.platform) key token = true
     /\ jwt.claims_of (P:=Demo.platform) token = Some payload
     /\ (forall v, dict_get "exp" payload = Some v ->
                   exists e, jwt.python_int (P:=Demo.platform) v = Return e /\ 2000 < e)
     /\ dict_get "purpose" payload = Some (JStr (JWT_PURPOSE Demo.cfg))
     /\ dict_get "sub" payload = Some sub
     /\ JSONBody [("status", JStr "valid"); ("user", JStr "admin")]
        = JSONBody [("status", JStr "valid"); ("user", sub)])
  /\ (forall r q,
        validate (P:=Demo.platform) Demo.cfg 90000 (Some Demo.session_token) Demo.warm
        <> (Return r, q))
  /\ validate (P:=Demo.platform) Demo.cfg 90000
       (Some (Demo.token_of [ ("sub", JStr "admin");
                              ("purpose", JStr "caliguland-session") ]))
       Demo.warm
     = (Return (JSONBody [("status", JStr "valid"); ("user", JStr "admin")]), Demo.warm).
Proof.
  split; [|split].
  - apply (proj1 (validate_accepts_only_valid_tokens (P:=Demo.platform) Demo.cfg 2000)
             (Some Demo.session_token) Demo.warm Demo.warm
             (JSONBody [("status", JStr "valid"); ("user", JStr "admin")])).
    vm_compute. reflexivity.
  - intros r q.
    apply (proj1 (proj2 (validate_accepts_only_valid_tokens (P:=Demo.platform)
                           Demo.cfg 90000))
             Demo.session_token Demo.warm r q).
    right.
    exists [ ("sub", JStr "admin"); ("exp", JInt 87400); ("iat", JInt 1000);
             ("purpose", JStr "caliguland-session") ].
    split; [vm_compute; reflexivity|]. right.
    exists (JInt 87400). split; [reflexivity|].
    intros e He. injection He as <-. lia.
  - apply (proj2 (proj2 (validate_accepts_only_valid_tokens (P:=Demo.platform)
                           Demo.cfg 90000))
             (Demo.token_of [("sub", JStr "admin"); ("purpose", JStr "caliguland-session")])
             "0f1e2d3c"
             [("sub", JStr "admin"); ("purpose", JStr "caliguland-session")]
             (JStr "admin") Demo.warm Demo.warm);
      vm_compute; reflexivity.
Defined.



(** C5 at work: the process signs a token without [sub] and is asked to
    validate it. *)
Lemma validate_missing_sub_escapes_witness :
  validate (P:=Demo.platform) Demo.cfg 2000
    (Some (Demo.token_of [ ("exp", JInt 9000);
                           ("purpose", JStr "caliguland-session") ]))
    Demo.warm
  = (Raise (KeyError "sub"), Demo.warm)
  /\ status
       (http_boundary
          (fst (validate (P:=Demo.platform) Demo.cfg 2000
                  (Some (Demo.token_of [ ("exp", JInt 9000);
                                         ("purpose", JStr "caliguland-session") ]))
                  Demo.warm)))
     = 500.
Proof.
  apply (validate_missing_sub_escapes (P:=Demo.platform) Demo.cfg 2000
           (Demo.token_of [("exp", JInt 9000); ("purpose", JStr "caliguland-session")])
           "0f1e2d3c" [("exp", JInt 9000); ("purpose", JStr "caliguland-session")]
           Demo.warm Demo.warm);
    vm_compute; reflexivity.
Defined.



(** C8, as stated, fails: when the key-management service answers the
    first call with the empty key, the call succeeds, and the next call
    invokes the service again and returns another key. *)
Lemma empty_key_is_derived_again :
  get_jwt_secret (P:=Demo.empty_key_platform) Demo.cfg fresh_process
  = (Return EmptyString, {| _jwt_secret := Some EmptyString; dstack_calls := 1 |})
  /\ get_jwt_secret (P:=Demo.empty_key_platform) Demo.cfg
       {| _jwt_secret := Some EmptyString; dstack_calls := 1 |}
     = (Return "a9b8c7d6", {| _jwt_secret := Some "a9b8c7d6"; dstack_calls := 2 |}).
Proof. split; reflexivity. Qed.

(** C8 (amended) at work: after the first call, a logout, a failed and a
    successful login and a validation leave the cache and the count of
    key-management calls as they were. *)
Lemma jwt_secret_cached_witness :
  get_jwt_secret (P:=Demo.platform) Demo.cfg
    (serve (P:=Demo.platform) Demo.cfg
       [ GET_logout; POST_login 1000 1000 "admin" "wrongpass";
         POST_login 1001 1001 "admin" "secret123";
         GET_auth_validate 2000 (Some Demo.session_token) ] Demo.warm)
  = (Return "0f1e2d3c",
     serve (P:=Demo.platform) Demo.cfg
       [ GET_logout; POST_login 1000 1000 "admin" "wrongpass";
         POST_login 1001 1001 "admin" "secret123";
         GET_auth_validate 2000 (Some Demo.session_token) ] Demo.warm)
  /\ _jwt_secret
       (serve (P:=Demo.platform) Demo.cfg
          [ GET_logout; POST_login 1000 1000 "admin" "wrongpass";
            POST_login 1001 1001 "admin" "secret123";
            GET_auth_validate 2000 (Some Demo.session_token) ] Demo.warm)
     = Some "0f1e2d3c"
  /\ dstack_calls
       (serve (P:=Demo.platform) Demo.cfg
          [ GET_logout; POST_login 1000 1000 "admin" "wrongpass";
            POST_login 1001 1001 "admin" "secret123";
            GET_auth_validate 2000 (Some Demo.session_token) ] Demo.warm)
     = dstack_calls Demo.warm
  /\ (forall t0 t1 username password token q,
        login (P:=Demo.platform) Demo.cfg t0 t1 username password
          (serve (P:=Demo.platform) Demo.cfg
             [ GET_logout; POST_login 1000 1000 "admin" "wrongpass";
               POST_login 1001 1001 "admin" "secret123";
               GET_auth_validate 2000 (Some Demo.session_token) ] Demo.warm)
        = (Return (session_redirect Demo.cfg token), q) ->
        jwt.encode (P:=Demo.platform)
          (session_claims Demo.cfg username (t0 + 3600 * JWT_EXPIRY_HOURS Demo.cfg) t1)
          "0f1e2d3c"
        = Return token).
Proof.
  apply (jwt_secret_cached (P:=Demo.platform) Demo.cfg fresh_process Demo.warm
           "0f1e2d3c").
  - reflexivity.
  - discriminate.
Defined.

(* ================================================================= *)
(** * The proxy-header middleware *)

Lemma string_app_assoc (a b c : string) : (a ++ b) ++ c = a ++ b ++ c.
Proof. induction a as [|x a IH]; simpl; [reflexivity | now rewrite IH]. Qed.

Lemma string_length_app (a b : string) :
  String.length (a ++ b) = (String.length a + String.length b)%nat.
Proof. induction a as [|x a IH]; simpl; [reflexivity | now rewrite IH]. Qed.

Lemma colons_app (a b : string) : colons (a ++ b) = (colons a + colons b)%nat.
Proof.
  induction a as [|x a IH]; simpl; [reflexivity|].
  destruct (Ascii.eqb x ":"); simpl; now rewrite IH.
Qed.

Lemma strip_prefix_Some (pre s r : string) :
  strip_prefix pre s = Some r -> s = pre ++ r.
Proof.
  revert s. induction pre as [|a pre IH]; simpl; intros s H.
  - now injection H as <-.
  - destruct s as [|b s]; [discriminate|].
    destruct (Ascii.eqb_spec a b) as [<-|]; [|discriminate].
    now rewrite (IH s H).
Qed.

Lemma strip_prefix_app (pre r : string) : strip_prefix pre (pre ++ r) = Some r.
Proof.
  induction pre as [|a pre IH]; simpl; [reflexivity|].
  now rewrite Ascii.eqb_refl.
Qed.

Lemma span_spec (f : ascii -> bool) (s a b : string) :
  span f s = (a, b) ->
  s = a ++ b /\ string_forall f a = true
  /\ match b with
     | EmptyString => True
     | String c _ => f c = false
     end.
Proof.
  revert a b. induction s as [|c s IH]; simpl; intros a b H.
  - injection H as <- <-. auto.
  - destruct (f c) eqn:Hc.
    + destruct (span f s) as [a' b']. injection H as <- <-.
      destruct (IH a' b' eq_refl) as (-> & Ha & Hb).
      simpl. rewrite Hc. auto.
    + injection H as <- <-. simpl. auto.
Qed.

Lemma span_app (f : ascii -> bool) (a b : string) :
  string_forall f a = true ->
  match b with
  | EmptyString => True
  | String c _ => f c = false
  end ->
  span f (a ++ b) = (a, b).
Proof.
  induction a as [|c a IH]; simpl; intros Ha Hb.
  - destruct b as [|c b]; [reflexivity|]. simpl. now rewrite Hb.
  - apply andb_true_iff in Ha as [Hc Ha]. rewrite Hc. now rewrite (IH Ha Hb).
Qed.

(** What a match is made of. *)
Lemma match_port_url_Some (s g1 g2 rest : string) :
  match_port_url s = Some (g1, g2, rest) ->
  exists scheme host port path,
    (scheme = "http" \/ scheme = "https")
    /\ s = scheme ++ "://" ++ host ++ ":" ++ port ++ "/" ++ path ++ rest
    /\ g1 = scheme ++ "://" ++ host
    /\ g2 = "/" ++ path
    /\ host <> EmptyString /\ port <> EmptyString
    /\ string_forall is_host_char host = true
    /\ string_forall is_digit port = true
    /\ string_forall is_line_char path = true.
Proof.
  unfold match_port_url. intros H.
  destruct (strip_prefix "http" s) as [r0|] eqn:H0; [|discriminate].
  apply strip_prefix_Some in H0.
  set (sr := match r0 with
             | String "s"%char r' => ("https", r')
             | _ => ("http", r0)
             end) in H.
  assert (Hsr : (fst sr = "http" \/ fst sr = "https") /\ s = fst sr ++ snd sr).
  { subst sr s. destruct r0 as [|c r0]; [simpl; auto|].
    destruct (Ascii.eqb_spec c "s") as [->|Hc]; [simpl; auto|].
    assert (E : match String c r0 with
                | String "s"%char r' => ("https", r')
                | _ => ("http", String c r0)
                end = ("http", String c r0)).
    { destruct c as [[] [] [] [] [] [] [] []]; try reflexivity. now contradiction Hc. }
    rewrite E. simpl. auto. }
  destruct sr as [scheme r1]. simpl in Hsr. destruct Hsr as [Hscheme Hs].
  destruct (strip_prefix "://" r1) as [r2|] eqn:H2; [|discriminate].
  apply strip_prefix_Some in H2.
  destruct (span is_host_char r2) as [host r3] eqn:H3.
  apply span_spec in H3 as (E3 & Hhost & _).
  destruct host as [|h host]; [discriminate|].
  destruct r3 as [|c3 r4]; [discriminate|].
  destruct (Ascii.eqb_spec c3 ":") as [->|Hc3].
  2:{ destruct c3 as [[] [] [] [] [] [] [] []]; try discriminate H. now contradiction Hc3. }
  destruct (span is_digit r4) as [port r5] eqn:H5.
  apply span_spec in H5 as (E5 & Hport & _).
  destruct port as [|d port]; [discriminate|].
  destruct r5 as [|c5 r6]; [discriminate|].
  destruct (Ascii.eqb_spec c5 "/") as [->|Hc5].
  2:{ destruct c5 as [[] [] [] [] [] [] [] []]; try discriminate H. now contradiction Hc5. }
  destruct (span is_line_char r6) as [path rest'] eqn:H6.
  apply span_spec in H6 as (E6 & Hpath & _).
  injection H as <- <- <-.
  exists scheme, (String h host), (String d port), path.
  repeat split; try assumption; try discriminate.
  subst r1 r2 r4 r6. exact Hs.
Qed.

(** The match of a URL that has the pattern's shape. *)
Lemma match_port_url_shape (scheme host port path rest : string) :
  scheme = "http" \/ scheme = "https" ->
  host <> EmptyString -> port <> EmptyString ->
  string_forall is_host_char host = true ->
  string_forall is_digit port = true ->
  string_forall is_line_char path = true ->
  match rest with
  | EmptyString => True
  | String c _ => c = newline
  end ->
  match_port_url (scheme ++ "://" ++ host ++ ":" ++ port ++ "/" ++ path ++ rest)
  = Some (scheme ++ "://" ++ host, "/" ++ path, rest).
Proof.
  intros Hscheme Hh Hp Hhost Hport Hpath Hrest.
  assert (H1 : span is_host_char (host ++ ":" ++ port ++ "/" ++ path ++ rest)
               = (host, ":" ++ port ++ "/" ++ path ++ rest))
    by (apply span_app; [assumption | reflexivity]).
  assert (H2 : span is_digit (port ++ "/" ++ path ++ rest)
               = (port, "/" ++ path ++ rest))
    by (apply span_app; [assumption | reflexivity]).
  assert (H3 : span is_line_char (path ++ rest) = (path, rest)).
  { apply span_app; [assumption|]. destruct rest as [|c rest]; [exact I|].
    subst c. reflexivity. }
  destruct host as [|h host]; [contradiction|].
  destruct port as [|d port]; [contradiction|].
  unfold match_port_url.
  destruct Hscheme as [-> | ->]; simpl; simpl in H1, H2.
  - rewrite H1. simpl. rewrite H2. simpl. rewrite H3. reflexivity.
  - rewrite H1. simpl. rewrite H2. simpl. rewrite H3. reflexivity.
Qed.

Lemma string_app_nil_r (a : string) : a ++ EmptyString = a.
Proof. induction a as [|x a IH]; simpl; [reflexivity | now rewrite IH]. Qed.

Lemma match_port_url_rest (s g1 g2 rest : string) :
  match_port_url s = Some (g1, g2, rest) ->
  (String.length rest < String.length s)%nat /\ (2 <= colons s)%nat.
Proof.
  intros H.
  apply match_port_url_Some in H
    as (scheme & host & port & path & _ & -> & _ & _ & _ & _ & _ & _ & _).
  rewrite !string_length_app, !colons_app. simpl. lia.
Qed.

(** Enough fuel is as good as any other amount that is enough. *)
Lemma sub_port_fuel (n m : nat) (s : string) :
  (String.length s < n)%nat -> (String.length s < m)%nat ->
  sub_port n s = sub_port m s.
Proof.
  revert m s. induction n as [|n IH]; intros m s Hn Hm; [lia|].
  destruct m as [|m]; [lia|]. simpl.
  destruct (match_port_url s) as [[[g1 g2] rest]|] eqn:E.
  - apply match_port_url_rest in E as [E _].
    rewrite (IH m rest); [reflexivity | lia | lia].
  - destruct s as [|c s]; [reflexivity|]. simpl in Hn, Hm.
    rewrite (IH m s); [reflexivity | lia | lia].
Qed.

(** [fix_location], one match or one character at a time. *)
Lemma fix_location_step (s : string) :
  fix_location s =
    match match_port_url s with
    | Some (g1, g2, rest) => g1 ++ g2 ++ fix_location rest
    | None =>
        match s with
        | EmptyString => EmptyString
        | String c s' => String c (fix_location s')
        end
    end.
Proof.
  unfold fix_location at 1. simpl.
  destruct (match_port_url s) as [[[g1 g2] rest]|] eqn:E.
  - apply match_port_url_rest in E as [E _].
    unfold fix_location. rewrite (sub_port_fuel (String.length s) (S (String.length rest)));
      [reflexivity | lia | lia].
  - destruct s as [|c s]; reflexivity.
Qed.

(** X11. The port is removed from an absolute URL: [scheme://host:port/path]
    becomes [scheme://host/path], for the schemes http and https, a host
    without slash or colon, a port of digits and a path on one line. *)
Theorem proxy_strips_port (scheme host port path : string) :
  scheme = "http" \/ scheme = "https" ->
  host <> EmptyString -> port <> EmptyString ->
  string_forall is_host_char host = true ->
  string_forall is_digit port = true ->
  string_forall is_line_char path = true ->
  fix_location (scheme ++ "://" ++ host ++ ":" ++ port ++ "/" ++ path)
  = scheme ++ "://" ++ host ++ "/" ++ path.
Proof.
  intros Hs Hh Hp Hhost Hport Hpath.
  rewrite fix_location_step.
  pose proof (match_port_url_shape scheme host port path EmptyString
                Hs Hh Hp Hhost Hport Hpath I) as E.
  rewrite string_app_nil_r in E. rewrite E.
  rewrite (fix_location_step EmptyString). simpl.
  rewrite string_app_nil_r, !string_app_assoc. reflexivity.
Qed.

(** X12. A location with at most one colon is left as it is: every relative
    path without colon, and every absolute URL without port whose path has
    no colon. *)
Theorem proxy_keeps_location_without_port (s : string) :
  (colons s <= 1)%nat -> fix_location s = s.
Proof.
  unfold fix_location. generalize (S (String.length s)) as n.
  intros n. revert s. induction n as [|n IH]; intros s H; [reflexivity|].
  simpl. destruct (match_port_url s) as [[[g1 g2] rest]|] eqn:E.
  - apply match_port_url_rest in E as [_ E]. lia.
  - destruct s as [|c s]; [reflexivity|].
    rewrite IH; [reflexivity|].
    simpl in H. destruct (Ascii.eqb c ":"); lia.
Qed.

Lemma proxy_strips_port_witness :
  fix_location ("https" ++ "://" ++ "domain" ++ ":" ++ "8080" ++ "/" ++ "path")
  = "https" ++ "://" ++ "domain" ++ "/" ++ "path".
Proof.
  apply (proxy_strips_port "https" "domain" "8080" "path");
    solve [auto | discriminate | reflexivity].
Defined.

Lemma proxy_keeps_location_without_port_witness :
  fix_location "https://domain/code-server" = "https://domain/code-server".
Proof.
  apply (proxy_keeps_location_without_port "https://domain/code-server").
  simpl. lia.
Defined.

(* ================================================================= *)
(** * Start-up, failures of key derivation and the life of a token *)

Section Further.
Context {P : Platform} (cfg : Config).

Lemma expiry_of_Raise (t0 : Z) :
  ~ (datetime_min <= t0 + 3600 * JWT_EXPIRY_HOURS cfg <= datetime_max) ->
  exists msg, expiry_of cfg t0 = Raise (OverflowError msg).
Proof.
  intros H. unfold expiry_of, timedelta_hours, datetime_add, obind.
  destruct (_ || _); [eauto|].
  set (e := t0 + 3600 * JWT_EXPIRY_HOURS cfg) in *.
  destruct (Z.ltb_spec e datetime_min); [cbn [orb]; eauto|].
  destruct (Z.ltb_spec datetime_max e); [cbn [orb]; eauto|]. lia.
Qed.

(** A token [login] signed under [key], validated at or after its [exp]
    and not before its [iat] in a process whose secret is [key]. *)
Lemma issued_token_expired (expiry iat now : Z) (username token key : string)
    (p2 p2' : Process) :
  jwt.encode (session_claims cfg username expiry iat) key = Return token ->
  jwt.wire_faithful (session_claims cfg username expiry iat) key ->
  get_jwt_secret cfg p2 = (Return key, p2') ->
  iat <= now -> expiry <= now ->
  validate cfg now (Some token) p2
  = (Raise (HTTPException 401 "Session expired"), p2').
Proof.
  intros Henc Hw Hs Hi He.
  assert (Hne : token <> EmptyString).
  { apply encode_Return in Henc as [_ ->]. apply str_truthy_iff, str_truthy_app_dot. }
  rewrite (validate_with_secret cfg now token key p2 p2' Hne Hs).
  assert (Hd : jwt.decode token key now
               = Raise (PyJWTError ExpiredSignatureError "Signature has expired")).
  { unfold jwt.decode. rewrite (decode_complete_encoded _ _ _ Hw Henc). simpl.
    unfold jwt.loads_payload. destruct Hw as (_ & _ & _ & _ & ->). simpl.
    unfold jwt.validate_claims, jwt.validate_iat, jwt.validate_nbf,
      jwt.validate_exp; simpl.
    destruct (Z.gtb_spec iat now); [lia|]. simpl.
    destruct (Z.leb_spec expiry now); [reflexivity | lia]. }
  rewrite Hd. reflexivity.
Qed.

(** X1. The process does not start without a password: whenever the
    module's top level produced a configuration, [VIBEVM_PASSWORD] was set
    and not empty, the stored digest is what [bcrypt.hashpw] made of its
    bytes, and the lifetime is [int()] of [JWT_EXPIRY_HOURS], or 24 hours
    when that is unset. *)
Theorem startup_requires_password
    (environ : string -> option string) (salt : string) (c : Config) :
  startup environ salt = Return c ->
  exists password bytes,
    environ "VIBEVM_PASSWORD" = Some password
    /\ password <> EmptyString
    /\ str_encode password = Return bytes
    /\ bcrypt_hashpw bytes salt = Return (PASSWORD_HASH_BYTES c)
    /\ match environ "JWT_EXPIRY_HOURS" with
       | None => JWT_EXPIRY_HOURS c = 24
       | Some s => int_of_str s = Some (JWT_EXPIRY_HOURS c)
       end.
Proof.
  unfold startup. intros H.
  destruct (environ "VIBEVM_PASSWORD") as [password|]; [|discriminate H].
  destruct (str_truthy password) eqn:Ht; [|discriminate H]. simpl in H.
  unfold obind in H.
  destruct (str_encode password) as [bytes|] eqn:Hb; [|discriminate H].
  destruct (bcrypt_hashpw bytes salt) as [hash|] eqn:Hh; [|discriminate H].
  exists password, bytes.
  split; [reflexivity|]. split; [now apply str_truthy_iff|].
  split; [exact Hb|].
  destruct (environ "JWT_EXPIRY_HOURS") as [s|].
  - destruct (int_of_str s) as [h|]; [|discriminate H].
    injection H as <-. split; [exact Hh | reflexivity].
  - injection H as <-. split; [exact Hh | reflexivity].
Qed.

(** X2. Start-up and login compose: in a process that started from
    [environ], the credential check of [login] accepts the configured
    password, provided [bcrypt.checkpw] accepts the digest that
    [bcrypt.hashpw] made of it; the user name to log in with is
    [VIBEVM_USERNAME], or [admin] when that is unset. *)
Theorem started_process_accepts_configured_password
    (environ : string -> option string) (salt password : string) (c : Config) :
  startup environ salt = Return c ->
  environ "VIBEVM_PASSWORD" = Some password ->
  (forall bytes hash,
     str_encode password = Return bytes ->
     bcrypt_hashpw bytes salt = Return hash ->
     bcrypt_checkpw bytes hash = Return true) ->
  checkpw c password = Return true
  /\ password <> EmptyString
  /\ USERNAME c = getenv environ "VIBEVM_USERNAME" "admin".
Proof.
  unfold startup. intros H Hpw Hlaw. rewrite Hpw in H.
  destruct (str_truthy password) eqn:Ht; [|discriminate H]. simpl in H.
  unfold obind in H.
  destruct (str_encode password) as [bytes|] eqn:Hb; [|discriminate H].
  destruct (bcrypt_hashpw bytes salt) as [hash|] eqn:Hh; [|discriminate H].
  destruct (match environ "JWT_EXPIRY_HOURS" with
            | Some s => _
            | None => _
            end) as [hours|]; [|discriminate H].
  injection H as <-. unfold checkpw, obind. simpl. rewrite Hb.
  split; [exact (Hlaw bytes hash eq_refl Hh)|].
  split; [now apply str_truthy_iff | reflexivity].
Qed.

(** X3. A failure of key derivation is answered with a 500 and is not
    remembered: while no key is cached and the key-management service
    fails, [validate] of any non-empty cookie and [login] with the right
    credentials both raise [HTTPException(500, "Failed to derive JWT
    key")], the cache stays as it was, and the next call of
    [get_jwt_secret] asks the service again. *)
Theorem key_derivation_failure_is_not_cached
    (now : Z) (token : string) (p : Process) (e : exn) :
  opt_truthy (_jwt_secret p) = false ->
  dstack_get_key (JWT_KEY_PATH cfg) (dstack_calls p) = Raise e ->
  token <> EmptyString ->
  let p' := {| _jwt_secret := _jwt_secret p; dstack_calls := S (dstack_calls p) |} in
  validate cfg now (Some token) p
  = (Raise (HTTPException 500 "Failed to derive JWT key"), p')
  /\ (forall t0 t1 expiry username password,
        username = USERNAME cfg ->
        checkpw cfg password = Return true ->
        expiry_of cfg t0 = Return expiry ->
        login cfg t0 t1 username password p
        = (Raise (HTTPException 500 "Failed to derive JWT key"), p'))
  /\ (forall key,
        dstack_get_key (JWT_KEY_PATH cfg) (S (dstack_calls p)) = Return key ->
        get_jwt_secret cfg p'
        = (Return key, {| _jwt_secret := Some key;
                          dstack_calls := S (S (dstack_calls p)) |})).
Proof.
  intros Hcold Hfail Hne p'.
  assert (Hg : get_jwt_secret cfg p
               = (Raise (HTTPException 500 "Failed to derive JWT key"), p')).
  { unfold get_jwt_secret, derive_jwt_secret. unfold opt_truthy in Hcold.
    destruct (_jwt_secret p) as [s|]; [rewrite Hcold|]; now rewrite Hfail. }
  split; [exact (validate_without_secret cfg now token p p' _ Hne Hg)|]. split.
  - intros t0 t1 expiry username password -> Hpw He.
    unfold login. rewrite String.eqb_refl. simpl.
    unfold bind, try_except, lift, raise, ret. rewrite Hpw. simpl.
    now rewrite He, Hg.
  - intros key Hkey. unfold get_jwt_secret, derive_jwt_secret. subst p'. simpl.
    unfold opt_truthy in Hcold.
    destruct (_jwt_secret p) as [s|]; [rewrite Hcold|]; now rewrite Hkey.
Qed.

(** X4. What a request can do to the process: it invokes the
    key-management service at most once, the cache keeps its key or takes
    the key that this invocation returned, and [login_page], [health],
    [logout] and a [validate] without cookie (or with an empty one) change
    nothing. *)
Theorem request_effects (r : request) (p : Process) :
  (dstack_calls p <= dstack_calls (snd (handle cfg r p)) <= S (dstack_calls p))%nat
  /\ (_jwt_secret (snd (handle cfg r p)) = _jwt_secret p
      \/ exists key,
           _jwt_secret (snd (handle cfg r p)) = Some key
           /\ dstack_get_key (JWT_KEY_PATH cfg) (dstack_calls p) = Return key)
  /\ match r with
     | GET_login | GET_health | GET_logout
     | GET_auth_validate _ None | GET_auth_validate _ (Some EmptyString) =>
         snd (handle cfg r p) = p
     | _ => True
     end.
Proof.
  assert (Hg : (dstack_calls p <= dstack_calls (snd (get_jwt_secret cfg p))
                <= S (dstack_calls p))%nat
               /\ (_jwt_secret (snd (get_jwt_secret cfg p)) = _jwt_secret p
                   \/ exists key,
                        _jwt_secret (snd (get_jwt_secret cfg p)) = Some key
                        /\ dstack_get_key (JWT_KEY_PATH cfg) (dstack_calls p)
                           = Return key)).
  { unfold get_jwt_secret, derive_jwt_secret.
    destruct (_jwt_secret p) as [s|] eqn:Hs; [destruct (str_truthy s)|];
      try destruct (dstack_get_key _ _) as [key|] eqn:Hk; simpl;
      (split; [lia|]); eauto. }
  split; [|split].
  - destruct (handle_state cfg r p) as [-> | ->]; [lia | apply Hg].
  - destruct (handle_state cfg r p) as [-> | ->]; [now left | apply Hg].
  - destruct r as [ | t0 t1 u pw | now [[|c t]|] | | ]; try exact I; reflexivity.
Qed.

(** X5. An expiry beyond what a [datetime] holds: with the right
    credentials and a [JWT_EXPIRY_HOURS] that takes [utcnow()] out of the
    years 1 to 9999, [login] raises [OverflowError] before it asks for the
    secret; the caller gets a 500 and no cookie. *)
Theorem login_expiry_overflow
    (t0 t1 : Z) (username password : string) (p : Process) :
  username = USERNAME cfg ->
  checkpw cfg password = Return true ->
  ~ (datetime_min <= t0 + 3600 * JWT_EXPIRY_HOURS cfg <= datetime_max) ->
  exists msg,
    login cfg t0 t1 username password p = (Raise (OverflowError msg), p)
    /\ http_boundary (fst (login cfg t0 t1 username password p))
       = {| status := 500; body := JStr "Internal Server Error";
            location := None; set_cookie := [] |}.
Proof.
  intros -> Hpw Hrange. destruct (expiry_of_Raise t0 Hrange) as [msg He].
  exists msg. unfold login. rewrite String.eqb_refl. simpl.
  unfold bind, try_except, lift, raise, ret. rewrite Hpw. simpl. rewrite He.
  split; reflexivity.
Qed.

(** X6. A session token ends at its [exp]: the token a [login] issued is
    rejected with [401 "Session expired"] by every [validate] at or after
    [t0 + JWT_EXPIRY_HOURS] hours (and not before the token's [iat]), in a
    process that holds the secret it was signed with. *)
Theorem issued_token_expires
    (t0 t1 now : Z) (username password token key : string) (p p1 p2 p2' : Process) :
  login cfg t0 t1 username password p = (Return (session_redirect cfg token), p1) ->
  get_jwt_secret cfg p = (Return key, p1) ->
  jwt.wire_faithful
    (session_claims cfg username (t0 + 3600 * JWT_EXPIRY_HOURS cfg) t1) key ->
  get_jwt_secret cfg p2 = (Return key, p2') ->
  t1 <= now ->
  t0 + 3600 * JWT_EXPIRY_HOURS cfg <= now ->
  validate cfg now (Some token) p2
  = (Raise (HTTPException 401 "Session expired"), p2').
Proof.
  intros Hlogin Hkey Hw Hs Hi He.
  apply login_Return in Hlogin
    as (_ & _ & expiry & key' & token' & Hx & Hkey' & Henc & Hr).
  rewrite Hkey in Hkey'. injection Hkey' as <-. injection Hr as <-.
  apply expiry_of_Return in Hx as [-> _].
  exact (issued_token_expired _ t1 now username token key p2 p2' Henc Hw Hs Hi He).
Qed.

(** X7. With a [JWT_EXPIRY_HOURS] of zero or less, which nothing in the
    module refuses, the cookie that [login] hands out holds a token that is
    already expired: with a clock that does not run backwards, every later
    [validate] rejects it with [401 "Session expired"]. *)
Theorem nonpositive_ttl_tokens_never_valid
    (t0 t1 now : Z) (username password token key : string) (p p1 p2 p2' : Process) :
  JWT_EXPIRY_HOURS cfg <= 0 ->
  login cfg t0 t1 username password p = (Return (session_redirect cfg token), p1) ->
  get_jwt_secret cfg p = (Return key, p1) ->
  jwt.wire_faithful
    (session_claims cfg username (t0 + 3600 * JWT_EXPIRY_HOURS cfg) t1) key ->
  get_jwt_secret cfg p2 = (Return key, p2') ->
  t0 <= t1 <= now ->
  validate cfg now (Some token) p2
  = (Raise (HTTPException 401 "Session expired"), p2').
Proof.
  intros Hh Hlogin Hkey Hw Hs Ht.
  apply login_Return in Hlogin
    as (_ & _ & expiry & key' & token' & Hx & Hkey' & Henc & Hr).
  rewrite Hkey in Hkey'. injection Hkey' as <-. injection Hr as <-.
  apply expiry_of_Return in Hx as [-> _].
  apply (issued_token_expired _ t1 now username token key p2 p2' Henc Hw Hs); lia.
Qed.

(** X8. A token signed with another secret is refused: when the process
    holds the secret [key'] and the token was written by [jwt.encode]
    under [key], whose MAC of the signing input differs, [validate] raises
    [401 "Invalid token: Signature verification failed"], whatever the
    claims. *)
Theorem token_of_other_secret_rejected
    (now : Z) (payload : dict) (token key key' : string) (p p' : Process) :
  jwt.encode payload key = Return token ->
  jwt.wire_faithful payload key ->
  get_jwt_secret cfg p = (Return key', p') ->
  is_asymmetric_key key' = false ->
  hmac_sha256 key' (jwt.signing_input_of jwt.jose_header payload)
  <> hmac_sha256 key (jwt.signing_input_of jwt.jose_header payload) ->
  validate cfg now (Some token) p
  = (Raise (HTTPException 401 "Invalid token: Signature verification failed"), p').
Proof.
  intros Henc Hw Hs Hk Hmac.
  assert (Hne : token <> EmptyString).
  { apply encode_Return in Henc as [_ ->]. apply str_truthy_iff, str_truthy_app_dot. }
  rewrite (validate_with_secret cfg now token key' p p' Hne Hs).
  assert (Hd : jwt.decode token key' now
               = Raise (PyJWTError InvalidSignatureError "Signature verification failed")).
  { unfold jwt.decode, jwt.decode_complete.
    rewrite (load_encoded _ _ _ Hw Henc). simpl.
    unfold jwt.verify_signature, jwt.prepare_key. simpl. rewrite Hk. simpl.
    destruct (String.eqb_spec
                (hmac_sha256 key (jwt.signing_input_of jwt.jose_header payload))
                (hmac_sha256 key' (jwt.signing_input_of jwt.jose_header payload)))
      as [E|_]; [now contradiction Hmac | reflexivity]. }
  rewrite Hd. reflexivity.
Qed.

(** What each handler can answer. *)
Lemma handle_result (r : request) (p : Process) :
  (exists e, fst (handle cfg r p) = Raise e)
  \/ (r = GET_login /\ fst (handle cfg r p) = Return (HTMLResponse login_html))
  \/ (exists d now c, r = GET_auth_validate now c
                      /\ fst (handle cfg r p) = Return (JSONBody d))
  \/ (r = GET_health
      /\ fst (handle cfg r p)
         = Return (JSONBody [("status", JStr "healthy");
                             ("service", JStr "caliguland-auth")]))
  \/ (r = GET_logout
      /\ fst (handle cfg r p)
         = Return (RedirectResponse "/login" 302 [delete_cookie "vibevm_session"]))
  \/ (exists t0 t1 password key token,
        r = POST_login t0 t1 (USERNAME cfg) password
        /\ checkpw cfg password = Return true
        /\ fst (get_jwt_secret cfg p) = Return key
        /\ jwt.encode
             (session_claims cfg (USERNAME cfg) (t0 + 3600 * JWT_EXPIRY_HOURS cfg) t1)
             key
           = Return token
        /\ fst (handle cfg r p) = Return (session_redirect cfg token)).
Proof.
  destruct r as [ | t0 t1 username password | now c | | ]; simpl.
  - right; left. auto.
  - destruct (login cfg t0 t1 username password p) as [[r|e] p1] eqn:Hl;
      [|left; simpl; eauto].
    apply login_Return in Hl
      as (-> & Hpw & expiry & key & token & He & Hs & Henc & ->).
    apply expiry_of_Return in He as [-> _].
    do 5 right. exists t0, t1, password, key, token.
    rewrite Hs. auto.
  - destruct (validate cfg now c p) as [[r|e] p1] eqn:Hv; [|left; simpl; eauto].
    right; right; left. simpl.
    apply validate_Return in Hv
      as (tk & key & t & payload & sub & _ & _ & _ & _ & _ & _ & _ & _ & _ & ->).
    eauto 6.
  - do 3 right; left. auto.
  - do 4 right; left. auto.
Qed.

(** X9. A cookie is only handed out after the credential check: whenever
    the response to a request sets a cookie, either the request is a
    logout and the cookie is the removal of [vibevm_session] (empty,
    [Max-Age=0]), or it is a login with the configured user name and a
    password that [bcrypt.checkpw] accepted, and the cookie is
    [vibevm_session] (HttpOnly, SameSite=lax, the configured lifetime)
    whose value is the token that [jwt.encode] wrote for this login: the
    session claims of the configured user, signed with the secret that
    [get_jwt_secret] returned. *)
Theorem cookie_only_after_credentials (r : request) (p : Process) (c : cookie) :
  In c (set_cookie (serve_http cfg r p)) ->
  (r = GET_logout
   /\ c = {| cookie_key := "vibevm_session"; cookie_value := EmptyString;
             max_age := Some 0; expires := Some 0; path := "/";
             httponly := false; secure := false; samesite := "lax" |})
  \/ exists t0 t1 password key token,
       r = POST_login t0 t1 (USERNAME cfg) password
       /\ checkpw cfg password = Return true
       /\ fst (get_jwt_secret cfg p) = Return key
       /\ jwt.encode
            (session_claims cfg (USERNAME cfg) (t0 + 3600 * JWT_EXPIRY_HOURS cfg) t1)
            key
          = Return token
       /\ token <> EmptyString
       /\ c = {| cookie_key := "vibevm_session"; cookie_value := token;
                 max_age := Some (JWT_EXPIRY_HOURS cfg * 3600); expires := None;
                 path := "/"; httponly := true; secure := false;
                 samesite := "lax" |}.
Proof.
  unfold serve_http.
  destruct (handle_result r p)
    as [[e H] | [[_ H] | [(d & now & ck & _ & H) | [[_ H] | [[Hr H]
        | (t0 & t1 & pw & key & token & Hr & Hpw & Hs & Henc & H)]]]]];
    rewrite H; simpl.
  - destruct e; simpl; contradiction.
  - contradiction.
  - contradiction.
  - contradiction.
  - intros [<- | []]. now left.
  - intros [<- | []]. right. exists t0, t1, pw, key, token.
    repeat split; try assumption.
    apply encode_Return in Henc as [_ ->]. apply str_truthy_iff, str_truthy_app_dot.
Qed.

(** X10. What the proxy's sub-request sees: [GET /auth/validate] is
    answered 200, 401 or 500, never with a redirect and never with a
    cookie. *)
Theorem validate_status_codes (now : Z) (c : option string) (p : Process) :
  (status (serve_http cfg (GET_auth_validate now c) p) = 200
   \/ status (serve_http cfg (GET_auth_validate now c) p) = 401
   \/ status (serve_http cfg (GET_auth_validate now c) p) = 500)
  /\ location (serve_http cfg (GET_auth_validate now c) p) = None
  /\ set_cookie (serve_http cfg (GET_auth_validate now c) p) = [].
Proof.
  unfold serve_http. simpl.
  destruct (validate cfg now c p) as [[r|e] q] eqn:Hv; simpl.
  - apply validate_Return in Hv
      as (tk & key & t & payload & sub & _ & _ & _ & _ & _ & _ & _ & _ & _ & ->).
    simpl. auto.
  - assert (He : (exists d, e = HTTPException 401 d)
                 \/ (exists d, e = HTTPException 500 d)
                 \/ match e with HTTPException _ _ => False | _ => True end).
    { destruct c as [token|]; [|injection Hv as <- _; eauto].
      destruct (string_dec token EmptyString) as [->|Hne];
        [injection Hv as <- _; eauto|].
      destruct (get_jwt_secret cfg p) as [[key|e0] q0] eqn:Hs.
      2:{ rewrite (validate_without_secret cfg now token p q0 e0 Hne Hs) in Hv.
          injection Hv as <- _. eauto. }
      rewrite (validate_with_secret cfg now token key p q0 Hne Hs) in Hv.
      destruct (jwt.decode token key now) as [payload|e1] eqn:Hd.
      - destruct (purpose_differs cfg payload); [injection Hv as <- _; eauto|].
        destruct (dict_get "sub" payload); [discriminate Hv|].
        injection Hv as <- _. right; right. exact I.
      - destruct (is_ExpiredSignatureError e1); [injection Hv as <- _; eauto|].
        destruct (is_InvalidTokenError e1); [injection Hv as <- _; eauto|].
        injection Hv as <- _. right; right.
        apply decode_Raise in Hd as [(cls & m & ->) | [(m & ->) | (m & ->)]];
          exact I. }
    destruct He as [[d ->] | [[d ->] | He]]; simpl; auto.
    destruct e; try contradiction; simpl; auto.
Qed.

(** X13. The middleware changes no response of the five handlers: the
    only redirects they make are to the relative paths [/code-server] and
    [/login], which the pattern does not match, so a request that reaches
    a handler is answered as FastAPI renders the handler's result, with
    the [Location] it was given. (A redirect the framework makes by
    itself, with an absolute URL that has a port, is what the middleware
    is there to rewrite.) *)
Theorem proxy_leaves_app_responses (r : request) (p : Process) :
  serve_http cfg r p = http_boundary (fst (handle cfg r p))
  /\ (location (serve_http cfg r p) = None
      \/ location (serve_http cfg r p) = Some "/code-server"
      \/ location (serve_http cfg r p) = Some "/login").
Proof.
  unfold serve_http.
  destruct (handle_result r p)
    as [[e H] | [[_ H] | [(d & now & ck & _ & H) | [[_ H] | [[Hr H]
        | (t0 & t1 & pw & key & token & Hr & Hpw & Hs & Henc & H)]]]]];
    rewrite H; try (split; [reflexivity | simpl; auto]).
  destruct e; split; try reflexivity; simpl; auto.
Qed.

End Further.

(** ** The properties above on the executable platform *)

(** X1 at work: the process started with [VIBEVM_PASSWORD=secret123]. *)
Lemma startup_requires_password_witness :
  exists password bytes,
    Demo.environ "VIBEVM_PASSWORD" = Some password
    /\ password <> EmptyString
    /\ str_encode (Platform:=Demo.platform) password = Return bytes
    /\ bcrypt_hashpw (Platform:=Demo.platform) bytes "salt"
       = Return (PASSWORD_HASH_BYTES Demo.cfg)
    /\ match Demo.environ "JWT_EXPIRY_HOURS" with
       | None => JWT_EXPIRY_HOURS Demo.cfg = 24
       | Some s => int_of_str (Platform:=Demo.platform) s
                   = Some (JWT_EXPIRY_HOURS Demo.cfg)
       end.
Proof.
  apply (startup_requires_password (P:=Demo.platform) Demo.environ "salt" Demo.cfg).
  reflexivity.
Defined.

(** X2 at work: [admin] and [secret123] pass the credential check of the
    process that [VIBEVM_PASSWORD=secret123] started. *)
Lemma started_process_accepts_configured_password_witness :
  checkpw (P:=Demo.platform) Demo.cfg "secret123" = Return true
  /\ "secret123" <> EmptyString
  /\ USERNAME Demo.cfg = getenv Demo.environ "VIBEVM_USERNAME" "admin".
Proof.
  apply (started_process_accepts_configured_password (P:=Demo.platform)
           Demo.environ "salt" "secret123" Demo.cfg).
  - reflexivity.
  - reflexivity.
  - intros bytes hash Hb Hh. injection Hb as <-. injection Hh as <-. reflexivity.
Defined.

(** X3 at work: the key-management service is out of reach at the first
    request and back at the second. *)
Lemma key_derivation_failure_is_not_cached_witness :
  validate (P:=Demo.failing_key_platform) Demo.cfg 2000 (Some Demo.session_token)
    fresh_process
  = (Raise (HTTPException 500 "Failed to derive JWT key"),
     {| _jwt_secret := None; dstack_calls := 1 |})
  /\ login (P:=Demo.failing_key_platform) Demo.cfg 1000 1000 "admin" "secret123"
       fresh_process
     = (Raise (HTTPException 500 "Failed to derive JWT key"),
        {| _jwt_secret := None; dstack_calls := 1 |})
  /\ get_jwt_secret (P:=Demo.failing_key_platform) Demo.cfg
       {| _jwt_secret := None; dstack_calls := 1 |}
     = (Return "0f1e2d3c", {| _jwt_secret := Some "0f1e2d3c"; dstack_calls := 2 |}).
Proof.
  destruct (key_derivation_failure_is_not_cached (P:=Demo.failing_key_platform)
              Demo.cfg 2000 Demo.session_token fresh_process
              (Exception "Connection refused"))
    as (Hv & Hl & Hg).
  - reflexivity.
  - reflexivity.
  - vm_compute. discriminate.
  - split; [exact Hv|]. split.
    + apply (Hl 1000 1000 87400 "admin" "secret123"); reflexivity.
    + apply (Hg "0f1e2d3c"). reflexivity.
Defined.

(** X5 at work: a lifetime of ten million years. *)
Lemma login_expiry_overflow_witness :
  exists msg,
    login (P:=Demo.platform) (Demo.cfg_with_hours 87600000000) 1000 1000
      "admin" "secret123" fresh_process
    = (Raise (OverflowError msg), fresh_process)
    /\ http_boundary
         (fst (login (P:=Demo.platform) (Demo.cfg_with_hours 87600000000) 1000 1000
                 "admin" "secret123" fresh_process))
       = {| status := 500; body := JStr "Internal Server Error";
            location := None; set_cookie := [] |}.
Proof.
  apply (login_expiry_overflow (P:=Demo.platform) (Demo.cfg_with_hours 87600000000)
           1000 1000 "admin" "secret123" fresh_process).
  - reflexivity.
  - reflexivity.
  - vm_compute. intros [_ H]. apply H. reflexivity.
Defined.

(** X6 at work: the token issued at 1000 for 24 hours, presented at
    87400. *)
Lemma issued_token_expires_witness :
  validate (P:=Demo.platform) Demo.cfg 87400 (Some Demo.session_token) Demo.warm
  = (Raise (HTTPException 401 "Session expired"), Demo.warm).
Proof.
  apply (issued_token_expires (P:=Demo.platform) Demo.cfg 1000 1000 87400
           "admin" "secret123" Demo.session_token "0f1e2d3c"
           fresh_process Demo.warm Demo.warm Demo.warm).
  - vm_compute. reflexivity.
  - reflexivity.
  - vm_compute. repeat split.
  - reflexivity.
  - lia.
  - vm_compute. discriminate.
Defined.

(** X7 at work: [JWT_EXPIRY_HOURS=0]; the cookie is handed out at 1000 and
    refused at 1000. *)
Lemma nonpositive_ttl_tokens_never_valid_witness :
  exists token,
    login (P:=Demo.platform) (Demo.cfg_with_hours 0) 1000 1000 "admin" "secret123"
      fresh_process
    = (Return (session_redirect (Demo.cfg_with_hours 0) token), Demo.warm)
    /\ validate (P:=Demo.platform) (Demo.cfg_with_hours 0) 1000 (Some token) Demo.warm
       = (Raise (HTTPException 401 "Session expired"), Demo.warm).
Proof.
  destruct (login_accepts (P:=Demo.platform) (Demo.cfg_with_hours 0) 1000 1000 1000
              "admin" "secret123" "0f1e2d3c" fresh_process Demo.warm)
    as (token & Henc & Hl).
  - reflexivity.
  - reflexivity.
  - reflexivity.
  - reflexivity.
  - reflexivity.
  - exists token. split; [exact Hl|].
    apply (nonpositive_ttl_tokens_never_valid (P:=Demo.platform) (Demo.cfg_with_hours 0)
             1000 1000 1000 "admin" "secret123" token "0f1e2d3c"
             fresh_process Demo.warm Demo.warm Demo.warm).
    + vm_compute. discriminate.
    + exact Hl.
    + reflexivity.
    + vm_compute. repeat split.
    + reflexivity.
    + lia.
Defined.

(** X8 at work: the session token of one deployment, presented to a
    process that holds another key. *)
Lemma token_of_other_secret_rejected_witness :
  validate (P:=Demo.platform) Demo.cfg 2000
    (Some (Demo.token_of (session_claims Demo.cfg "admin" 87400 1000))) Demo.stranger
  = (Raise (HTTPException 401 "Invalid token: Signature verification failed"),
     Demo.stranger).
Proof.
  apply (token_of_other_secret_rejected (P:=Demo.platform) Demo.cfg 2000
           (session_claims Demo.cfg "admin" 87400 1000)
           (Demo.token_of (session_claims Demo.cfg "admin" 87400 1000))
           "0f1e2d3c" "a9b8c7d6" Demo.stranger Demo.stranger).
  - vm_compute. reflexivity.
  - vm_compute. repeat split.
  - reflexivity.
  - reflexivity.
  - vm_compute. discriminate.
Defined.

(** X9 at work: the cookie in the answer to the login of [admin] at 1000
    holds the session token. *)
Lemma cookie_only_after_credentials_witness :
  (POST_login 1000 1000 "admin" "secret123" = GET_logout
   /\ session_cookie Demo.cfg Demo.session_token
      = {| cookie_key := "vibevm_session"; cookie_value := EmptyString;
           max_age := Some 0; expires := Some 0; path := "/";
           httponly := false; secure := false; samesite := "lax" |})
  \/ exists t0 t1 password key token,
       POST_login 1000 1000 "admin" "secret123"
       = POST_login t0 t1 (USERNAME Demo.cfg) password
       /\ checkpw (P:=Demo.platform) Demo.cfg password = Return true
       /\ fst (get_jwt_secret (P:=Demo.platform) Demo.cfg fresh_process) = Return key
       /\ jwt.encode (P:=Demo.platform)
            (session_claims Demo.cfg (USERNAME Demo.cfg)
               (t0 + 3600 * JWT_EXPIRY_HOURS Demo.cfg) t1)
            key
          = Return token
       /\ token <> EmptyString
       /\ session_cookie Demo.cfg Demo.session_token
          = {| cookie_key := "vibevm_session"; cookie_value := token;
               max_age := Some (JWT_EXPIRY_HOURS Demo.cfg * 3600); expires := None;
               path := "/"; httponly := true; secure := false;
               samesite := "lax" |}.
Proof.
  apply (cookie_only_after_credentials (P:=Demo.platform) Demo.cfg
           (POST_login 1000 1000 "admin" "secret123") fresh_process
           (session_cookie Demo.cfg Demo.session_token)).
  vm_compute. left. reflexivity.
Defined.

(** ** The algorithm of a token *)

Section Algorithm.
Context {P : Platform} (cfg : Config).

(** X14. Only HS256 is taken: a token whose header announces another
    algorithm, [none] among them, or no algorithm at all, is rejected with
    a 401 [Invalid token: ...] whatever its claims and its signature
    segment are, because [validate] passes [algorithms=["HS256"]]. *)
Theorem validate_rejects_other_algorithms
    (now : Z) (token key : string) (t : jwt.jws) (p p' : Process) :
  get_jwt_secret cfg p = (Return key, p') ->
  jwt.load token = Return t ->
  dict_get "alg" (jwt.header t) <> Some (JStr "HS256") ->
  exists msg,
    validate cfg now (Some token) p
    = (Raise (HTTPException 401 ("Invalid token: " ++ msg)), p').
Proof.
  intros Hs Hl Halg.
  assert (Hne : token <> EmptyString).
  { intros ->. discriminate Hl. }
  rewrite (validate_with_secret cfg now token key p p' Hne Hs).
  assert (Hd : exists cls msg,
             jwt.decode token key now = Raise (PyJWTError cls msg)
             /\ (cls = DecodeError \/ cls = InvalidAlgorithmError)).
  { unfold jwt.decode, jwt.decode_complete. rewrite Hl. simpl.
    destruct (jwt.detached (jwt.header t)); simpl;
      [eexists _, _; split; [reflexivity | auto]|].
    unfold jwt.verify_signature.
    destruct (dict_get "alg" (jwt.header t)) as [alg|]; simpl;
      [|eexists _, _; split; [reflexivity | auto]].
    destruct (jwt.alg_allowed alg) eqn:Ha; simpl;
      [|eexists _, _; split; [reflexivity | auto]].
    exfalso. apply Halg. destruct alg; try discriminate Ha.
    simpl in Ha. apply String.eqb_eq in Ha. now subst. }
  destruct Hd as (cls & msg & -> & [-> | ->]); exists msg; reflexivity.
Qed.

(** X15. A claim that is an infinite float escapes [validate]: for a
    correctly signed token whose [iat] and [nbf] claims pass their checks
    and whose [exp] claim is [Infinity] or [-Infinity] (as [json.loads]
    reads a number too large for a double, too), [int()] raises
    [OverflowError] inside [jwt.decode], which catches [ValueError] only;
    neither [except] clause of [validate] catches it, and the caller gets
    the server's 500 instead of a 401. *)
Theorem validate_infinite_exp_escapes
    (now : Z) (token key : string) (payload : dict) (negative : bool)
    (p p' : Process) :
  get_jwt_secret cfg p = (Return key, p') ->
  jwt.signature_verifies key token = true ->
  jwt.claims_of token = Some payload ->
  jwt.validate_iat payload now = Return tt ->
  jwt.validate_nbf payload now = Return tt ->
  dict_get "exp" payload = Some (JFloat (FInf negative)) ->
  validate cfg now (Some token) p
  = (Raise (OverflowError "cannot convert float infinity to integer"), p')
  /\ http_boundary (fst (validate cfg now (Some token) p))
     = {| status := 500; body := JStr "Internal Server Error";
          location := None; set_cookie := [] |}.
Proof.
  intros Hs Hsig Hc Hiat Hnbf Hexp.
  assert (Hne : token <> EmptyString) by (intros ->; discriminate Hsig).
  rewrite (validate_with_secret cfg now token key p p' Hne Hs).
  assert (Hd : jwt.decode token key now
               = Raise (OverflowError "cannot convert float infinity to integer")).
  { unfold jwt.decode, jwt.signature_verifies, jwt.claims_of in *.
    destruct (jwt.decode_complete token key) as [t|] eqn:Hdc; [|discriminate Hsig].
    rewrite (decode_complete_load _ _ _ Hdc) in Hc. simpl.
    destruct (jwt.loads_payload (jwt.payload_bytes t)) as [d|]; [|discriminate Hc].
    injection Hc as ->. simpl.
    unfold jwt.validate_claims. rewrite Hiat, Hnbf. simpl.
    unfold jwt.validate_exp. rewrite Hexp. reflexivity. }
  rewrite Hd. split; reflexivity.
Qed.

End Algorithm.

(** X14 at work: the unsigned token of [admin]. *)
Lemma validate_rejects_other_algorithms_witness :
  exists msg,
    validate (P:=Demo.platform) Demo.cfg 2000 (Some Demo.unsigned_token) Demo.warm
    = (Raise (HTTPException 401 ("Invalid token: " ++ msg)), Demo.warm).
Proof.
  apply (validate_rejects_other_algorithms (P:=Demo.platform) Demo.cfg 2000
           Demo.unsigned_token "0f1e2d3c"
           ltac:(let v := eval vm_compute in (@jwt.load Demo.platform Demo.unsigned_token) in
                 match v with Return ?t => exact t end)
           Demo.warm Demo.warm).
  - reflexivity.
  - vm_compute. reflexivity.
  - vm_compute. discriminate.
Defined.

(** X15 at work: a token signed by the process itself whose [exp] is
    [-Infinity]. *)
Lemma validate_infinite_exp_escapes_witness :
  validate (P:=Demo.platform) Demo.cfg 2000
    (Some (Demo.token_of [ ("sub", JStr "admin"); ("exp", JFloat (FInf true));
                           ("purpose", JStr "caliguland-session") ]))
    Demo.warm
  = (Raise (OverflowError "cannot convert float infinity to integer"), Demo.warm)
  /\ http_boundary
       (fst (validate (P:=Demo.platform) Demo.cfg 2000
               (Some (Demo.token_of [ ("sub", JStr "admin");
                                      ("exp", JFloat (FInf true));
                                      ("purpose", JStr "caliguland-session") ]))
               Demo.warm))
     = {| status := 500; body := JStr "Internal Server Error";
          location := None; set_cookie := [] |}.
Proof.
  apply (validate_infinite_exp_escapes (P:=Demo.platform) Demo.cfg 2000
           (Demo.token_of [ ("sub", JStr "admin"); ("exp", JFloat (FInf true));
                            ("purpose", JStr "caliguland-session") ])
           "0f1e2d3c"
           [ ("sub", JStr "admin"); ("exp", JFloat (FInf true));
             ("purpose", JStr "caliguland-session") ]
           true Demo.warm Demo.warm);
    vm_compute; reflexivity.
Defined.
